(** * Homepage settings tab (obsidian-homepage): model and properties

    The development follows the two copies of the settings module found in
    the repository:

    - [SettingsTs]  is [src/settings.ts] (it also holds the two suggesters);
    - [Part000]     is the later copy of the same module, with the
      [openOnStartup] and [autoScroll] preferences and the headings.

    JavaScript values are embedded shallowly: a string is the list of its
    UTF-16 code units, the preferences object is a finite map from property
    names to values, an exception is the [Throw] branch of [result]. *)

From Stdlib Require Import ZArith NArith Ascii List Lia.
From stdpp Require Import base option list gmap strings.

Open Scope string_scope.
Open Scope list_scope.

(* ===================================================================== *)
(** ** JavaScript values                                                  *)
(* ===================================================================== *)

Module Js.

(** A string is its sequence of UTF-16 code units. *)
Definition jsstring := list N.

(** An ASCII literal as a JavaScript string. *)
Definition js (s : string) : jsstring :=
  map N_of_ascii (String.list_ascii_of_string s).

(** Primitive values. The only number of this program is the schema
    version, an integer. *)
Inductive value :=
| VUndef
| VNull
| VBool (b : bool)
| VNum (n : Z)
| VStr (s : jsstring).

Inductive exn :=
| TypeError (msg : string).

Inductive result (A : Type) :=
| Ok (a : A)
| Throw (e : exn).
Arguments Ok {A} a.
Arguments Throw {A} e.

Definition bind {A B} (r : result A) (k : A -> result B) : result B :=
  match r with
  | Ok a => k a
  | Throw e => Throw e
  end.

(** ToBoolean. *)
Definition truthy (v : value) : bool :=
  match v with
  | VUndef | VNull => false
  | VBool b => b
  | VNum n => negb (n =? 0)%Z
  | VStr s => match s with [] => false | _ :: _ => true end
  end.

(** [a || b]. *)
Definition or_else (a b : value) : value :=
  if truthy a then a else b.

(** The class [\s] of a regular expression without the [u] flag:
    WhiteSpace and LineTerminator code units. *)
Definition isWhiteSpace (c : N) : bool :=
  ((9 <=? c) && (c <=? 13)          (* TAB LF VT FF CR *)
   || (c =? 32) || (c =? 160)       (* SP, NBSP *)
   || (c =? 5760)                   (* U+1680 *)
   || (8192 <=? c) && (c <=? 8202)  (* U+2000 .. U+200A *)
   || (c =? 8232) || (c =? 8233)    (* LS, PS *)
   || (c =? 8239) || (c =? 8287)    (* U+202F, U+205F *)
   || (c =? 12288) || (c =? 65279)  (* U+3000, U+FEFF *))%N.

(** [\s*$] tried from the current position: the star is greedy, so a
    white-space unit is consumed first; giving it back leaves [$] in
    front of a unit, which fails. *)
Fixpoint match_ws_star_end (s : jsstring) : bool :=
  match s with
  | [] => true
  | c :: rest => isWhiteSpace c && match_ws_star_end rest || false
  end.

(** [s.match(/^\s*$/) !== null]. Without the [m] flag [^] holds at index
    0 only, so the later start positions the engine tries all fail. *)
Definition matches_blank (s : jsstring) : bool :=
  match_ws_star_end s.

(** [s] starts with [t]. *)
Fixpoint startsWith (t s : jsstring) : bool :=
  match t, s with
  | [], _ => true
  | _ :: _, [] => false
  | a :: t', b :: s' => (a =? b)%N && startsWith t' s'
  end.

(** [s.contains(t)], the alias of [String.prototype.includes] the host
    installs: [t] occurs in [s] at some index. *)
Fixpoint contains (s t : jsstring) : bool :=
  startsWith t s ||
  match s with
  | [] => false
  | _ :: s' => contains s' t
  end.

(** [toLowerCase] on the ASCII range, for running the model on examples;
    the runtime's own function is a parameter of the development. *)
Definition asciiLower (s : jsstring) : jsstring :=
  map (fun c => if (65 <=? c) && (c <=? 90) then c + 32 else c)%N s.

End Js.

Export Js.

(** [result] is the error monad; stdpp's [x ← r; k] is used for it. *)
#[global] Instance result_ret : MRet result := fun A a => Ok a.
#[global] Instance result_bind : MBind result := fun A B k r => Js.bind r k.

(** A property read, [o[k]]: a missing property reads as [undefined]. *)
Definition get (k : string) (o : gmap string value) : value :=
  default VUndef (o !! k).

(** [Object.values] of an object literal whose keys are not array indices:
    the values in the order the properties were written. *)
Definition Object_values {A} (o : list (string * A)) : list A :=
  map snd o.

(* ===================================================================== *)
(** ** The host application and the rest of the plugin                    *)
(* ===================================================================== *)

(** Vault entries, as the host API types them; the module reads [path] and
    [extension]. [file instanceof TFile] is the [File] case. *)
Record TFile := {
  path : jsstring;
  name : jsstring;
  basename : jsstring;
  extension : jsstring
}.

Inductive TAbstractFile :=
| File (f : TFile)
| Folder (folder_path folder_name : jsstring).

(** The core workspaces plugin, as far as the settings tab looks at it:
    [enabled], and the keys of [instance.workspaces] in [Object.keys]
    order. *)
Record WorkspacePlugin := {
  enabled : bool;
  workspaces : list jsstring
}.

(** What the tab calls but does not define: the host API ([normalizePath],
    the vault), the runtime's [toLowerCase], and the helpers imported from
    [./utils]. They are parameters. *)
Class Host := {
  App : Type;
  normalizePath : jsstring -> jsstring;
  toLowerCase : jsstring -> jsstring;
  getAllLoadedFiles : App -> list TAbstractFile;
  getWorkspacePlugin : App -> option WorkspacePlugin;
  getDailynotesAutorun : App -> bool;
  getDataviewPlugin : App -> bool
}.

(* ===================================================================== *)
(** ** What [display] renders                                             *)
(* ===================================================================== *)

(** The optional callback handed to [addToggle]. *)
Inductive Callback :=
| CbDisplay        (* (_) => this.display() *)
| CbSetIcon        (* (value) => this.plugin.setIcon(value) *)
| CbSetReversion.  (* (value) => this.plugin.setReversion(value) *)

Inductive Suggestor :=
| WorkspaceSuggest
| FileSuggest.

(** A dropdown component: the options added so far, as (value, display)
    pairs, and the value handed to [setValue]. *)
Record DropdownComponent := {
  options : list (jsstring * jsstring);
  selected : value
}.

Definition newDropdown : DropdownComponent :=
  {| options := []; selected := VUndef |}.

Definition addOption (v display : jsstring) (d : DropdownComponent)
  : DropdownComponent :=
  {| options := (options d ++ [(v, display)])%list; selected := selected d |}.

Definition setValue (v : value) (d : DropdownComponent) : DropdownComponent :=
  {| options := options d; selected := v |}.

(** The control of a setting row, with what its [onChange] closure
    captured. Descriptions, the placeholder and the initial text of the
    text field are presentation and are not part of the model. *)
Inductive Component :=
| MomentFormat (defaultFormat : jsstring) (shown : value)
| Text (suggestor : Suggestor) (homepage : string)
| Toggle (shown : value) (setting : string) (callback : option Callback)
| Dropdown (d : DropdownComponent) (setting : string).

Record Setting := {
  nameEl : string;
  isHeading : bool;
  component : option Component;
  classes : list string;     (* of settingEl *)
  style : string             (* of settingEl *)
}.

Inductive Element :=
| Html (html : string)
| Row (s : Setting).

Definition HIDDEN : string := "nv-workspace-hidden".

Definition newSetting (nm : string) (c : option Component) : Setting :=
  {| nameEl := nm; isHeading := false; component := c;
     classes := []; style := "" |}.

Definition addClass (cls : string) (s : Setting) : Setting :=
  {| nameEl := nameEl s; isHeading := isHeading s; component := component s;
     classes := (classes s ++ [cls])%list; style := style s |}.

Definition setStyle (css : string) (s : Setting) : Setting :=
  {| nameEl := nameEl s; isHeading := isHeading s; component := component s;
     classes := classes s; style := css |}.

Definition hasClass (cls : string) (s : Setting) : bool :=
  bool_decide (cls ∈ classes s).

(** The homepage entry is the date-format control or the text field. *)
Definition isMomentEntry (e : Element) : bool :=
  match e with
  | Row {| component := Some (MomentFormat _ _) |} => true
  | _ => false
  end.

Definition isTextEntry (e : Element) : bool :=
  match e with
  | Row {| component := Some (Text _ _) |} => true
  | _ => false
  end.

Definition isHomepageEntry (e : Element) : bool :=
  isMomentEntry e || isTextEntry e.

(** The settings property the [onChange] closure of a control writes. *)
Definition boundOf (c : Component) : string :=
  match c with
  | MomentFormat _ _ => "momentFormat"
  | Text _ homepage => homepage
  | Toggle _ setting _ => setting
  | Dropdown _ setting => setting
  end.

Definition boundSetting (e : Element) : option string :=
  match e with
  | Row {| component := Some c |} => Some (boundOf c)
  | _ => None
  end.

(* ===================================================================== *)
(** ** Plugin state                                                       *)
(* ===================================================================== *)

Section State.
Context `{Host}.

(** [settings] is the one object that [plugin.settings] and the tab's
    [this.settings] both point to (the constructor copies the
    reference); [data] is what the host last persisted; [containerEl]
    holds the rows of the tab. *)
Record State := {
  app : App;
  settings : gmap string value;
  data : option (gmap string value);
  containerEl : list Element
}.

(** [this.settings[k] = v]. *)
Definition assign (k : string) (v : value) (st : State) : State :=
  {| app := app st; settings := <[k := v]> (settings st);
     data := data st; containerEl := containerEl st |}.

(** Modelled from the spec: [Homepage.saveSettings] of [main.ts], which
    is not among the sources. The record is "persisted wholesale by the
    host's plugin-data storage": the stored copy becomes the current
    record and no field changes. *)
Definition saveSettings (st : State) : State :=
  {| app := app st; settings := settings st;
     data := Some (settings st); containerEl := containerEl st |}.

Definition render (els : list Element) (st : State) : State :=
  {| app := app st; settings := settings st;
     data := data st; containerEl := els |}.

(** The methods of the plugin object ([main.ts]) the tab calls. *)
Class Main := {
  workspacesMode : State -> bool;
  workspacePlugin : State -> option WorkspacePlugin;
  setIcon : value -> State -> State;
  setReversion : value -> State -> State
}.

End State.

(** The primitive types the interface [HomepageSettings] declares. *)
Inductive PrimType :=
| TNumber
| TString
| TBoolean.

Definition hasType (v : value) (t : PrimType) : bool :=
  match v, t with
  | VNum _, TNumber | VStr _, TString | VBool _, TBoolean => true
  | _, _ => false
  end.

Definition disabledStyle : string :=
  "opacity: .5; pointer-events: none !important".

(* ===================================================================== *)
(** ** src/settings.ts                                                    *)
(* ===================================================================== *)

Module SettingsTs.

Definition Mode : list (string * jsstring) :=
  [ ("ReplaceAll", js "Replace all open notes");
    ("ReplaceLast", js "Replace last note");
    ("Retain", js "Keep open notes") ].

Definition View : list (string * jsstring) :=
  [ ("Default", js "Default view");
    ("Reading", js "Reading view");
    ("Source", js "Editing view (Source)");
    ("LivePreview", js "Editing view (Live Preview)") ].

(** [interface HomepageSettings], in declaration order. *)
Definition HomepageSettings : list (string * PrimType) :=
  [ ("version", TNumber);
    ("defaultNote", TString);
    ("useMoment", TBoolean);
    ("momentFormat", TString);
    ("workspace", TString);
    ("workspaceEnabled", TBoolean);
    ("hasRibbonIcon", TBoolean);
    ("openMode", TString);
    ("manualOpenMode", TString);
    ("view", TString);
    ("revertView", TBoolean);
    ("refreshDataview", TBoolean);
    ("autoCreate", TBoolean);
    ("pin", TBoolean) ].

Definition DEFAULT : gmap string value :=
  list_to_map
    [ ("version", VNum 2);
      ("defaultNote", VStr (js "Home"));
      ("useMoment", VBool false);
      ("momentFormat", VStr (js "YYYY-MM-DD"));
      ("workspace", VStr (js "Home"));
      ("workspaceEnabled", VBool false);
      ("hasRibbonIcon", VBool true);
      ("openMode", VStr (js "Replace all open notes"));     (* Mode.ReplaceAll *)
      ("manualOpenMode", VStr (js "Keep open notes"));      (* Mode.Retain *)
      ("view", VStr (js "Default view"));                   (* View.Default *)
      ("revertView", VBool true);
      ("refreshDataview", VBool false);
      ("autoCreate", VBool true);
      ("pin", VBool false) ].

Section Tab.
Context `{H : Host} {M : Main}.

(** [value === null] answers first; [value.match] exists on strings
    only, so any other value makes the call throw. *)
Definition sanitiseNote (v : value) : result value :=
  match v with
  | VNull => Ok VNull
  | VStr s =>
      if matches_blank s then Ok VNull
      else Ok (VStr (normalizePath s))
  | VUndef => Throw (TypeError "Cannot read properties of undefined")
  | VBool _ | VNum _ => Throw (TypeError "value.match is not a function")
  end.

Definition addDropdown (nm setting : string)
    (source : list (string * jsstring)) (st : State) : Setting :=
  let dropdown :=
    fold_left (fun d key => addOption key key d)
              (Object_values source) newDropdown in
  let dropdown := setValue (get setting (settings st)) dropdown in
  addClass HIDDEN (newSetting nm (Some (Dropdown dropdown setting))).

Definition addToggle (nm setting : string) (callback : option Callback)
    (workspaces : bool) (st : State) : Setting :=
  let toggle :=
    newSetting nm
      (Some (Toggle (get setting (settings st)) setting callback)) in
  if negb workspaces then addClass HIDDEN toggle else toggle.

Definition display (st : State) : State :=
  let workspacesMode := workspacesMode st in
  let warning :=
    if getDailynotesAutorun (app st) then
      [ Html "<div class='mod-warning' style='margin-bottom: 20px'>Daily Notes' 'Open daily note on startup' setting is not compatible with this plugin, so functionality has been disabled.</div>" ]
    else [] in
  let suggestor := if workspacesMode then WorkspaceSuggest else FileSuggest in
  let homepage := if workspacesMode then "workspace" else "defaultNote" in
  let entry :=
    if truthy (get "useMoment" (settings st)) && negb workspacesMode then
      newSetting "Homepage format"
        (Some (MomentFormat (js "YYYY-MM-DD")
                            (get "momentFormat" (settings st))))
    else
      newSetting "Homepage" (Some (Text suggestor homepage)) in
  let useMoment :=
    addToggle "Use date formatting" "useMoment" (Some CbDisplay) false st in
  let useWorkspaces :=
    match workspacePlugin st with
    | Some p =>
        if enabled p then
          [ addToggle "Use workspaces" "workspaceEnabled"
                      (Some CbDisplay) true st ]
        else []
    | None => []
    end in
  let ribbonSetting :=
    setStyle "padding-top: 70px; border-top: none !important"
      (addToggle "Display ribbon icon" "hasRibbonIcon"
                 (Some CbSetIcon) true st) in
  let refreshSetting :=
    if getDataviewPlugin (app st) then
      [ addToggle "Refresh Dataview" "refreshDataview" None false st ]
    else [] in
  let rows :=
    ([ entry; useMoment ] ++ useWorkspaces ++
    [ ribbonSetting;
      addDropdown "Homepage view" "view" View st;
      addToggle "Revert view on close" "revertView"
                (Some CbSetReversion) false st;
      addDropdown "Opening method" "openMode" Mode st;
      addDropdown "Manual opening method" "manualOpenMode" Mode st;
      addToggle "Auto-create" "autoCreate" None false st;
      addToggle "Pin" "pin" None false st ] ++
    refreshSetting)%list in
  let rows :=
    if workspacesMode then
      map (fun s => if hasClass HIDDEN s then setStyle disabledStyle s
                    else s) rows
    else rows in
  render (warning ++ map Row rows)%list st.

Definition runCallback (cb : Callback) (v : value) (st : State) : State :=
  match cb with
  | CbDisplay => display st
  | CbSetIcon => setIcon v st
  | CbSetReversion => setReversion v st
  end.

(** The [onChange] closures, by the control they are installed on. *)
Definition momentOnChange (v : value) (st : State) : result State :=
  Ok (saveSettings (assign "momentFormat" v st)).

Definition textOnChange (homepage : string) (v : value) (st : State)
  : result State :=
  note ← sanitiseNote v;
  Ok (saveSettings
        (assign homepage (or_else note (get homepage DEFAULT)) st)).

Definition dropdownOnChange (setting : string) (option : value)
    (st : State) : result State :=
  Ok (saveSettings (assign setting option st)).

Definition toggleOnChange (setting : string) (callback : option Callback)
    (v : value) (st : State) : result State :=
  let st := saveSettings (assign setting v st) in
  Ok (match callback with
      | Some cb => runCallback cb v st
      | None => st
      end).

Definition onChange (c : Component) (v : value) (st : State)
  : result State :=
  match c with
  | MomentFormat _ _ => momentOnChange v st
  | Text _ homepage => textOnChange homepage v st
  | Toggle _ setting callback => toggleOnChange setting callback v st
  | Dropdown _ setting => dropdownOnChange setting v st
  end.

(** [FileSuggest.getSuggestions]: [forEach] with [push]. *)
Definition FileSuggest_getSuggestions (a : App) (inputStr : jsstring)
  : list TFile :=
  let abstractFiles := getAllLoadedFiles a in
  let inputLower := toLowerCase inputStr in
  fold_left
    (fun files file =>
       match file with
       | File f =>
           if bool_decide (extension f = js "md")
              && contains (toLowerCase (path f)) inputLower
           then (files ++ [f])%list
           else files
       | Folder _ _ => files
       end)
    abstractFiles [].

(** [WorkspaceSuggest.getSuggestions]. Without the workspaces plugin
    the optional chain gives [undefined] and [Object.keys] throws. *)
Definition WorkspaceSuggest_getSuggestions (a : App) (inputStr : jsstring)
  : result (list jsstring) :=
  match getWorkspacePlugin a with
  | None => Throw (TypeError "Cannot convert undefined or null to object")
  | Some p =>
      let inputLower := toLowerCase inputStr in
      Ok (List.filter
            (fun workspace => contains (toLowerCase workspace) inputLower)
            (workspaces p))
  end.

End Tab.

End SettingsTs.

(* ===================================================================== *)
(** ** The later copy of the module (part_000)                            *)
(* ===================================================================== *)

Module Part000.

Definition Mode : list (string * jsstring) :=
  [ ("ReplaceAll", js "Replace all open notes");
    ("ReplaceLast", js "Replace last note");
    ("Retain", js "Keep open notes") ].

Definition View : list (string * jsstring) :=
  [ ("Default", js "Default view");
    ("Reading", js "Reading view");
    ("Source", js "Editing view (Source)");
    ("LivePreview", js "Editing view (Live Preview)") ].

Definition HomepageSettings : list (string * PrimType) :=
  [ ("version", TNumber);
    ("defaultNote", TString);
    ("useMoment", TBoolean);
    ("momentFormat", TString);
    ("workspace", TString);
    ("workspaceEnabled", TBoolean);
    ("openOnStartup", TBoolean);
    ("hasRibbonIcon", TBoolean);
    ("openMode", TString);
    ("manualOpenMode", TString);
    ("view", TString);
    ("revertView", TBoolean);
    ("refreshDataview", TBoolean);
    ("autoCreate", TBoolean);
    ("autoScroll", TBoolean);
    ("pin", TBoolean) ].

Definition DEFAULT : gmap string value :=
  list_to_map
    [ ("version", VNum 2);
      ("defaultNote", VStr (js "Home"));
      ("useMoment", VBool false);
      ("momentFormat", VStr (js "YYYY-MM-DD"));
      ("workspace", VStr (js "Home"));
      ("workspaceEnabled", VBool false);
      ("openOnStartup", VBool true);
      ("hasRibbonIcon", VBool true);
      ("openMode", VStr (js "Replace all open notes"));     (* Mode.ReplaceAll *)
      ("manualOpenMode", VStr (js "Keep open notes"));      (* Mode.Retain *)
      ("view", VStr (js "Default view"));                   (* View.Default *)
      ("revertView", VBool true);
      ("refreshDataview", VBool false);
      ("autoCreate", VBool true);
      ("autoScroll", VBool false);
      ("pin", VBool false) ].

Section Tab.
Context `{H : Host} {M : Main}.

Definition sanitiseNote (v : value) : result value :=
  match v with
  | VNull => Ok VNull
  | VStr s =>
      if matches_blank s then Ok VNull
      else Ok (VStr (normalizePath s))
  | VUndef => Throw (TypeError "Cannot read properties of undefined")
  | VBool _ | VNum _ => Throw (TypeError "value.match is not a function")
  end.

Definition disableSetting (s : Setting) : Setting :=
  setStyle "opacity: .5; pointer-events: none !important;" s.

Definition addHeading (nm : string) : Setting :=
  let heading :=
    {| nameEl := nm; isHeading := true; component := None;
       classes := []; style := "" |} in
  addClass HIDDEN heading.

Definition addDropdown (nm setting : string)
    (source : list (string * jsstring)) (st : State) : Setting :=
  let dropdown :=
    fold_left (fun d key => addOption key key d)
              (Object_values source) newDropdown in
  let dropdown := setValue (get setting (settings st)) dropdown in
  addClass HIDDEN (newSetting nm (Some (Dropdown dropdown setting))).

Definition addToggle (nm setting : string) (callback : option Callback)
    (workspaces : bool) (st : State) : Setting :=
  let toggle :=
    newSetting nm
      (Some (Toggle (get setting (settings st)) setting callback)) in
  if negb workspaces then addClass HIDDEN toggle else toggle.

Definition display (st : State) : State :=
  let workspacesMode := workspacesMode st in
  let dailynotesAutorun := getDailynotesAutorun (app st) in
  let suggestor := if workspacesMode then WorkspaceSuggest else FileSuggest in
  let homepage := if workspacesMode then "workspace" else "defaultNote" in
  let entry :=
    if truthy (get "useMoment" (settings st)) && negb workspacesMode then
      newSetting "Homepage format"
        (Some (MomentFormat (js "YYYY-MM-DD")
                            (get "momentFormat" (settings st))))
    else
      newSetting "Homepage" (Some (Text suggestor homepage)) in
  let useMoment :=
    addToggle "Use date formatting" "useMoment" (Some CbDisplay) false st in
  let useWorkspaces :=
    match workspacePlugin st with
    | Some p =>
        if enabled p then
          [ addToggle "Use workspaces" "workspaceEnabled"
                      (Some CbDisplay) true st ]
        else []
    | None => []
    end in
  let startupSetting :=
    addToggle "Open on startup" "openOnStartup" (Some CbDisplay) true st in
  let startupSetting :=
    if dailynotesAutorun then disableSetting startupSetting
    else startupSetting in
  let startupSetting :=
    setStyle (style startupSetting
              +:+ "padding-top: 30px; border-top: none !important")
             startupSetting in
  let openingSetting :=
    addDropdown "Opening method" "openMode" Mode st in
  let refreshSetting :=
    if getDataviewPlugin (app st) then
      [ addToggle "Refresh Dataview" "refreshDataview" None false st ]
    else [] in
  let before :=
    ([ entry; useMoment ] ++ useWorkspaces ++
     [ startupSetting;
       addToggle "Use ribbon icon" "hasRibbonIcon" (Some CbSetIcon) true st;
       addHeading "Vault environment" ])%list in
  let after :=
    ([ addDropdown "Manual opening method" "manualOpenMode" Mode st;
       addToggle "Auto-create" "autoCreate" None false st;
       addToggle "Pin" "pin" None false st;
       addHeading "Pane";
       addDropdown "Homepage view" "view" View st;
       addToggle "Revert view on close" "revertView"
                 (Some CbSetReversion) false st;
       addToggle "Auto-scroll" "autoScroll" None false st ] ++
     refreshSetting)%list in
  let disableHidden (s : Setting) :=
    if workspacesMode && hasClass HIDDEN s then disableSetting s else s in
  let openingSetting :=
    let s := disableHidden openingSetting in
    if negb (truthy (get "openOnStartup" (settings st))) || dailynotesAutorun
    then disableSetting s else s in
  render (map Row (map disableHidden before ++ [openingSetting]
                   ++ map disableHidden after))%list st.

Definition runCallback (cb : Callback) (v : value) (st : State) : State :=
  match cb with
  | CbDisplay => display st
  | CbSetIcon => setIcon v st
  | CbSetReversion => setReversion v st
  end.

Definition momentOnChange (v : value) (st : State) : result State :=
  Ok (saveSettings (assign "momentFormat" v st)).

Definition textOnChange (homepage : string) (v : value) (st : State)
  : result State :=
  note ← sanitiseNote v;
  Ok (saveSettings
        (assign homepage (or_else note (get homepage DEFAULT)) st)).

Definition dropdownOnChange (setting : string) (option : value)
    (st : State) : result State :=
  Ok (saveSettings (assign setting option st)).

Definition toggleOnChange (setting : string) (callback : option Callback)
    (v : value) (st : State) : result State :=
  let st := saveSettings (assign setting v st) in
  Ok (match callback with
      | Some cb => runCallback cb v st
      | None => st
      end).

Definition onChange (c : Component) (v : value) (st : State)
  : result State :=
  match c with
  | MomentFormat _ _ => momentOnChange v st
  | Text _ homepage => textOnChange homepage v st
  | Toggle _ setting callback => toggleOnChange setting callback v st
  | Dropdown _ setting => dropdownOnChange setting v st
  end.

End Tab.

End Part000.

(* ===================================================================== *)
(** ** A concrete host, to run the model                                  *)
(* ===================================================================== *)

(** Repeated separators collapse to one [/], leading and trailing ones go,
    and an empty result is the root: the shape of the host's path
    normalisation, used only to evaluate examples. *)
Fixpoint collapseSlashes (s : jsstring) (pending : bool) : jsstring :=
  match s with
  | [] => []
  | c :: rest =>
      if ((c =? 47) || (c =? 92))%N then collapseSlashes rest true
      else (if pending then [47%N] else []) ++ c :: collapseSlashes rest false
  end.

Definition demoNormalizePath (s : jsstring) : jsstring :=
  match collapseSlashes s false with
  | [] => [47%N]
  | 47%N :: p => p
  | p => p
  end.

Record DemoApp := {
  demoFiles : list TAbstractFile;
  demoWorkspaces : option WorkspacePlugin;
  demoAutorun : bool;
  demoDataview : bool
}.

Definition demoHost : Host :=
  {| App := DemoApp;
     normalizePath := demoNormalizePath;
     toLowerCase := asciiLower;
     getAllLoadedFiles := demoFiles;
     getWorkspacePlugin := demoWorkspaces;
     getDailynotesAutorun := demoAutorun;
     getDataviewPlugin := demoDataview |}.

(** A plugin whose workspaces mode is "the workspaces plugin is on and
    [workspaceEnabled] is set", and whose two callbacks leave the state
    alone. *)
Definition demoMain : @Main demoHost :=
  {| workspacesMode := fun st =>
       match demoWorkspaces (@app demoHost st) with
       | Some p => enabled p && truthy (get "workspaceEnabled" (@settings demoHost st))
       | None => false
       end;
     workspacePlugin := fun st => demoWorkspaces (@app demoHost st);
     setIcon := fun _ st => st;
     setReversion := fun _ st => st |}.

Definition mdFile (folder base : string) : TFile :=
  {| path := js (folder +:+ base +:+ ".md"); name := js (base +:+ ".md");
     basename := js base; extension := js "md" |}.

Definition demoApp : DemoApp :=
  {| demoFiles :=
       [ File (mdFile "" "Home");
         Folder (js "notes") (js "notes");
         File {| path := js "notes/home.png"; name := js "home.png";
                 basename := js "home"; extension := js "png" |};
         File (mdFile "notes/" "Todo") ];
     demoWorkspaces :=
       Some {| enabled := true; workspaces := [js "Home"; js "Writing"] |};
     demoAutorun := false;
     demoDataview := false |}.

Definition demoState (s : gmap string value) : @State demoHost :=
  {| app := demoApp : @App demoHost; settings := s; data := None;
     containerEl := [] |}.

(* ===================================================================== *)
(** ** Notions the statements use                                         *)
(* ===================================================================== *)

(** A string with nothing but white space in it (the empty one too). *)
Definition Blank (s : jsstring) : Prop :=
  Forall (fun c => isWhiteSpace c = true) s.

(** [t] occurs in [s]. *)
Definition Substring (t s : jsstring) : Prop :=
  exists before after, s = before ++ t ++ after.

(** The note candidates of a vault listing: its markdown files. *)
Definition markdownFiles (l : list TAbstractFile) : list TFile :=
  flat_map
    (fun e =>
       match e with
       | File f => if bool_decide (extension f = js "md") then [f] else []
       | Folder _ _ => []
       end) l.

(** All properties but [k] read the same in [before] and [after]. *)
Definition onlyWrites (k : string) (before after : gmap string value) : Prop :=
  forall k', k' <> k -> after !! k' = before !! k'.

(** The dropdown of a row, with the property it writes. *)
Definition dropdownOf (e : Element) : option (string * DropdownComponent) :=
  match e with
  | Row {| component := Some (Dropdown d setting) |} => Some (setting, d)
  | _ => None
  end.

(** The options [addDropdown] builds from an enumeration's values. *)
Definition optionsOf (values : list jsstring) : list (jsstring * jsstring) :=
  map (fun key => (key, key)) values.

Definition modeValues : list jsstring :=
  [ js "Replace all open notes"; js "Replace last note"; js "Keep open notes" ].

Definition viewValues : list jsstring :=
  [ js "Default view"; js "Reading view"; js "Editing view (Source)";
    js "Editing view (Live Preview)" ].

(* ===================================================================== *)
(** ** Further notions: the suggester's input box, typed records          *)
(* ===================================================================== *)

(** The text input a suggester is attached to: its value, the events
    triggered on it, and whether the suggestion list is open. *)
Record InputEl := {
  inputValue : jsstring;
  triggered : list string;
  suggestOpen : bool
}.

(** [WorkspaceSuggest.selectSuggestion] of [src/settings.ts]: the chosen
    name becomes the value of the input, an [input] event is triggered on
    it, and the list is closed. *)
Definition WorkspaceSuggest_selectSuggestion (workspace : jsstring)
    (inputEl : InputEl) : InputEl :=
  {| inputValue := workspace;
     triggered := triggered inputEl ++ ["input"];
     suggestOpen := false |}.

(** The properties the controls of a tab write, in row order. *)
Definition boundSettings (els : list Element) : list string :=
  omap boundSetting els.

Definition isHtml (e : Element) : bool :=
  match e with
  | Html _ => true
  | Row _ => false
  end.

(** [this.plugin.workspacePlugin?.enabled], as a boolean. *)
Definition workspacePluginEnabled (p : option WorkspacePlugin) : bool :=
  match p with
  | Some p => enabled p
  | None => false
  end.

(** A record that has every field of an interface, with a value of the
    declared type. *)
Definition Conforms (interface : list (string * PrimType))
    (o : gmap string value) : Prop :=
  forall k t, In (k, t) interface ->
    exists v, o !! k = Some v /\ hasType v t = true.

(** The values a control hands to its [onChange]: a toggle a boolean, a
    dropdown the value of one of its options, a text input a string. *)
Definition Offers (c : Component) (v : value) : Prop :=
  match c with
  | Toggle _ _ _ => exists b, v = VBool b
  | Dropdown d _ => exists o label, v = VStr o /\ In (o, label) (options d)
  | Text _ _ | MomentFormat _ _ => exists s, v = VStr s
  end.

(* ===================================================================== *)
(** ** Strings                                                            *)
(* ===================================================================== *)

Lemma matches_blank_forallb (s : jsstring) :
  matches_blank s = forallb isWhiteSpace s.
Proof.
  unfold matches_blank.
  induction s as [|c rest IH]; simpl; [reflexivity|].
  now rewrite orb_false_r, IH.
Qed.

Lemma matches_blank_Blank (s : jsstring) :
  matches_blank s = true <-> Blank s.
Proof.
  rewrite matches_blank_forallb. unfold Blank.
  rewrite forallb_forall, Forall_forall.
  setoid_rewrite list_elem_of_In. reflexivity.
Qed.

Lemma matches_blank_false (s : jsstring) :
  matches_blank s = false <-> Exists (fun c => isWhiteSpace c = false) s.
Proof.
  rewrite matches_blank_forallb.
  induction s as [|c rest IH]; simpl.
  - split; [discriminate | intros E; inversion E].
  - rewrite Exists_cons, andb_false_iff, IH. reflexivity.
Qed.

Lemma startsWith_spec (t s : jsstring) :
  startsWith t s = true <-> exists after, s = t ++ after.
Proof.
  revert s. induction t as [|a t IH]; intros s; simpl.
  - split; eauto.
  - destruct s as [|b s].
    + split; [discriminate | intros [? E]; discriminate E].
    + rewrite andb_true_iff, N.eqb_eq, IH. split.
      * intros [-> [after ->]]. eauto.
      * intros [after E]. injection E as -> ->. eauto.
Qed.

Lemma contains_spec (s t : jsstring) :
  contains s t = true <-> Substring t s.
Proof.
  unfold Substring.
  induction s as [|c s IH]; simpl; rewrite orb_true_iff, startsWith_spec.
  - split.
    + intros [[after E] | F]; [|discriminate]. exists [], after. exact E.
    + intros (before & after & E). left.
      destruct before; [|discriminate]. eauto.
  - rewrite IH. split.
    + intros [[after E] | (before & after & E)].
      * exists [], after. exact E.
      * exists (c :: before), after. simpl. now rewrite E.
    + intros (before & after & E). destruct before as [|c' before].
      * left. eauto.
      * right. injection E as -> ->. eauto.
Qed.

(* ===================================================================== *)
(** ** Building blocks of the tab                                         *)
(* ===================================================================== *)

Lemma addOptions_options (l : list jsstring) (d : DropdownComponent) :
  options (fold_left (fun d key => addOption key key d) l d)
  = options d ++ optionsOf l.
Proof.
  revert d. induction l as [|key l IH]; intros d; simpl.
  - now rewrite app_nil_r.
  - rewrite IH. simpl. now rewrite <- app_assoc.
Qed.

Lemma addOptions_selected (l : list jsstring) (d : DropdownComponent) :
  selected (fold_left (fun d key => addOption key key d) l d) = selected d.
Proof.
  revert d. induction l as [|key l IH]; intros d; simpl; [reflexivity|].
  now rewrite IH.
Qed.

Lemma In_markdownFiles (l : list TAbstractFile) (f : TFile) :
  In f (markdownFiles l) <-> In (File f) l /\ extension f = js "md".
Proof.
  unfold markdownFiles. rewrite in_flat_map. split.
  - intros ([g|p n] & Hin & Hf); [|destruct Hf].
    case_bool_decide; [|destruct Hf].
    destruct Hf as [->|[]]. auto.
  - intros [Hin Hext]. exists (File f). split; [exact Hin|].
    rewrite bool_decide_eq_true_2 by exact Hext. now left.
Qed.

Section SuggestersAndState.
Context `{H : Host}.

(** The [forEach] loop with the files pushed so far. *)
Lemma FileSuggest_loop (inputLower : jsstring) (l : list TAbstractFile)
    (files : list TFile) :
  fold_left
    (fun files file =>
       match file with
       | File f =>
           if bool_decide (extension f = js "md")
              && contains (toLowerCase (path f)) inputLower
           then files ++ [f]
           else files
       | Folder _ _ => files
       end) l files
  = files ++ List.filter
               (fun f => contains (toLowerCase (path f)) inputLower)
               (markdownFiles l).
Proof.
  revert files. induction l as [|[f|p n] l IH]; intros files; simpl.
  - now rewrite app_nil_r.
  - rewrite IH, List.filter_app. case_bool_decide; simpl.
    + destruct (contains _ _); simpl; [now rewrite <- app_assoc | reflexivity].
    + reflexivity.
  - apply IH.
Qed.

Lemma FileSuggest_is_filter (a : App) (inputStr : jsstring) :
  SettingsTs.FileSuggest_getSuggestions a inputStr
  = List.filter
      (fun f => contains (toLowerCase (path f)) (toLowerCase inputStr))
      (markdownFiles (getAllLoadedFiles a)).
Proof. apply (FileSuggest_loop _ _ []). Qed.

Lemma settings_saveSettings (st : State) :
  settings (saveSettings st) = settings st.
Proof. reflexivity. Qed.

Lemma settings_assign (k : string) (v : value) (st : State) :
  settings (assign k v st) = <[k := v]> (settings st).
Proof. reflexivity. Qed.

Lemma settings_render (els : list Element) (st : State) :
  settings (render els st) = settings st.
Proof. reflexivity. Qed.

End SuggestersAndState.

(* ===================================================================== *)
(** ** Note-name sanitisation                                             *)
(* ===================================================================== *)

(** C1, as amended. For a blank or white-space-only string [sanitiseNote]
    returns [null], in both copies of the module; it is the caller's
    [sanitiseNote(value) || d] that then evaluates to the default [d]. *)
Theorem sanitiseNote_blank `{H : Host} (s : jsstring) (d : value) :
  Blank s ->
  SettingsTs.sanitiseNote (VStr s) = Ok VNull
  /\ Part000.sanitiseNote (VStr s) = Ok VNull
  /\ (note ← SettingsTs.sanitiseNote (VStr s); Ok (or_else note d)) = Ok d
  /\ (note ← Part000.sanitiseNote (VStr s); Ok (or_else note d)) = Ok d.
Proof.
  intros B. apply matches_blank_Blank in B.
  unfold SettingsTs.sanitiseNote, Part000.sanitiseNote.
  rewrite B. repeat split.
Qed.

Lemma sanitiseNote_blank_witness :
  Blank [32; 9; 160]%N
  /\ @SettingsTs.sanitiseNote demoHost (VStr [32; 9; 160]%N) = Ok VNull
  /\ @Part000.sanitiseNote demoHost (VStr [32; 9; 160]%N) = Ok VNull
  /\ (note ← @SettingsTs.sanitiseNote demoHost (VStr [32; 9; 160]%N);
      Ok (or_else note (VStr (js "Home")))) = Ok (VStr (js "Home"))
  /\ (note ← @Part000.sanitiseNote demoHost (VStr [32; 9; 160]%N);
      Ok (or_else note (VStr (js "Home")))) = Ok (VStr (js "Home")).
Proof.
  split; [repeat constructor|].
  apply (@sanitiseNote_blank demoHost [32; 9; 160]%N (VStr (js "Home"))).
  repeat constructor.
Defined.

(** C1 as worded fails: on the empty string and on a single space
    [sanitiseNote] gives [null], which is neither default ("Home" for the
    note and for the workspace). *)
Lemma sanitiseNote_blank_not_default :
  Blank (js "") /\ Blank (js " ")
  /\ @SettingsTs.sanitiseNote demoHost (VStr (js ""))
     <> Ok (get "defaultNote" SettingsTs.DEFAULT)
  /\ @SettingsTs.sanitiseNote demoHost (VStr (js " "))
     <> Ok (get "workspace" SettingsTs.DEFAULT)
  /\ @Part000.sanitiseNote demoHost (VStr (js ""))
     <> Ok (get "defaultNote" Part000.DEFAULT)
  /\ @Part000.sanitiseNote demoHost (VStr (js " "))
     <> Ok (get "workspace" Part000.DEFAULT).
Proof.
  split; [constructor|]. split; [repeat constructor|].
  repeat split; vm_compute; discriminate.
Qed.

(** C2. A string with at least one unit that is not white space is
    answered with its normalised path, in both copies; the answer is never
    the [null] that makes the caller fall back. *)
Theorem sanitiseNote_nonblank `{H : Host} (s : jsstring) :
  Exists (fun c => isWhiteSpace c = false) s ->
  SettingsTs.sanitiseNote (VStr s) = Ok (VStr (normalizePath s))
  /\ Part000.sanitiseNote (VStr s) = Ok (VStr (normalizePath s))
  /\ SettingsTs.sanitiseNote (VStr s) <> Ok VNull
  /\ Part000.sanitiseNote (VStr s) <> Ok VNull.
Proof.
  intros E. apply matches_blank_false in E.
  unfold SettingsTs.sanitiseNote, Part000.sanitiseNote.
  rewrite E. repeat split; discriminate.
Qed.

Lemma sanitiseNote_nonblank_witness :
  Exists (fun c => isWhiteSpace c = false) (js " notes//Home/")
  /\ @SettingsTs.sanitiseNote demoHost (VStr (js " notes//Home/"))
     = Ok (VStr (js " notes/Home")).
Proof.
  split.
  - apply Exists_cons_tl, Exists_cons_hd. reflexivity.
  - apply (@sanitiseNote_nonblank demoHost (js " notes//Home/")).
    apply Exists_cons_tl, Exists_cons_hd. reflexivity.
Defined.

(** C8. The two copies of [sanitiseNote] agree on every argument: [null],
    every string, and the values on which both throw. *)
Theorem sanitiseNote_copies_agree `{H : Host} (v : value) :
  SettingsTs.sanitiseNote v = Part000.sanitiseNote v.
Proof. destruct v; reflexivity. Qed.

(** C3. Typing a blank or white-space-only string in the homepage text
    field: the handler returns normally (no exception), and the property
    it is bound to, [workspace] in workspaces mode and [defaultNote]
    otherwise, ends up holding its default, "Home". *)
Theorem textOnChange_blank `{H : Host} (workspacesMode : bool)
    (s : jsstring) (st : State) :
  Blank s ->
  let homepage := if workspacesMode then "workspace" else "defaultNote" in
  (exists st',
      SettingsTs.textOnChange homepage (VStr s) st = Ok st'
      /\ settings st' !! homepage = SettingsTs.DEFAULT !! homepage
      /\ settings st' !! homepage = Some (VStr (js "Home")))
  /\ (exists st',
      Part000.textOnChange homepage (VStr s) st = Ok st'
      /\ settings st' !! homepage = Part000.DEFAULT !! homepage
      /\ settings st' !! homepage = Some (VStr (js "Home"))).
Proof.
  intros B homepage. apply matches_blank_Blank in B.
  unfold SettingsTs.textOnChange, Part000.textOnChange,
    SettingsTs.sanitiseNote, Part000.sanitiseNote.
  rewrite B. simpl.
  split; eexists; (split; [reflexivity|]);
    rewrite settings_saveSettings, settings_assign, lookup_insert_eq;
    unfold homepage; destruct workspacesMode; split; reflexivity.
Qed.

Lemma textOnChange_blank_witness :
  Blank (js "  ")
  /\ exists st',
      @SettingsTs.textOnChange demoHost "workspace" (VStr (js "  "))
        (demoState (<["workspace" := VStr (js "Writing")]> SettingsTs.DEFAULT))
      = Ok st'
      /\ settings st' !! "workspace" = Some (VStr (js "Home")).
Proof.
  split; [repeat constructor|].
  destruct (@textOnChange_blank demoHost true (js "  ")
              (demoState (<["workspace" := VStr (js "Writing")]>
                            SettingsTs.DEFAULT)))
    as [(st' & E & _ & L) _]; [repeat constructor|].
  exists st'. split; [exact E | exact L].
Defined.

(* ===================================================================== *)
(** ** Suggestion filtering                                               *)
(* ===================================================================== *)

(** C4. Both suggesters return exactly the candidates whose lower-cased
    name contains the lower-cased query. For [FileSuggest] the candidates
    are the markdown files of the vault and the name is the path; the
    answer is those candidates filtered, in vault order, so a candidate is
    in it iff it matches. For [WorkspaceSuggest] the candidates are the
    workspace names; with the workspaces plugin present the call returns
    and the same holds. *)
Theorem getSuggestions_exact `{H : Host} (a : App) (inputStr : jsstring) :
  let matching (candidate : jsstring) :=
    contains (toLowerCase candidate) (toLowerCase inputStr) in
  (SettingsTs.FileSuggest_getSuggestions a inputStr
   = List.filter (fun f => matching (path f))
                 (markdownFiles (getAllLoadedFiles a))
   /\ forall f,
       In f (SettingsTs.FileSuggest_getSuggestions a inputStr)
       <-> In f (markdownFiles (getAllLoadedFiles a))
           /\ Substring (toLowerCase inputStr) (toLowerCase (path f)))
  /\ forall p,
      getWorkspacePlugin a = Some p ->
      exists out,
        SettingsTs.WorkspaceSuggest_getSuggestions a inputStr = Ok out
        /\ out = List.filter matching (workspaces p)
        /\ forall w,
            In w out
            <-> In w (workspaces p)
                /\ Substring (toLowerCase inputStr) (toLowerCase w).
Proof.
  intros matching. split.
  - split; [apply FileSuggest_is_filter|].
    intros f. rewrite FileSuggest_is_filter, filter_In, contains_spec.
    reflexivity.
  - intros p Hp. unfold SettingsTs.WorkspaceSuggest_getSuggestions.
    rewrite Hp. eexists. split; [reflexivity|]. split; [reflexivity|].
    intros w. unfold matching. rewrite filter_In, contains_spec. reflexivity.
Qed.

Lemma getSuggestions_exact_witness :
  @getWorkspacePlugin demoHost demoApp
  = Some {| enabled := true; workspaces := [js "Home"; js "Writing"] |}
  /\ map path (@SettingsTs.FileSuggest_getSuggestions demoHost demoApp (js "TODO"))
     = [js "notes/Todo.md"]
  /\ @SettingsTs.WorkspaceSuggest_getSuggestions demoHost demoApp (js "hOmE")
     = Ok [js "Home"].
Proof.
  split; [reflexivity|].
  destruct (@getSuggestions_exact demoHost demoApp (js "TODO"))
    as [[EF _] _].
  destruct (@getSuggestions_exact demoHost demoApp (js "hOmE"))
    as [_ W].
  destruct (W _ eq_refl) as (out & E & -> & _).
  split; [rewrite EF; reflexivity | exact E].
Defined.

(** C9. Whatever the query, the empty one included, every suggestion of
    [FileSuggest] is a file of the vault listing (never a folder) whose
    extension is exactly "md" and whose lower-cased full path contains the
    lower-cased query; a file with any other extension is never
    returned. *)
Theorem FileSuggest_markdown_by_path `{H : Host} (a : App)
    (inputStr : jsstring) (f : TFile) :
  In f (SettingsTs.FileSuggest_getSuggestions a inputStr) ->
  In (File f) (getAllLoadedFiles a)
  /\ extension f = js "md"
  /\ contains (toLowerCase (path f)) (toLowerCase inputStr) = true
  /\ Substring (toLowerCase inputStr) (toLowerCase (path f)).
Proof.
  rewrite FileSuggest_is_filter, filter_In, In_markdownFiles.
  intros [[Hin Hext] Hc]. repeat split; try assumption.
  now apply contains_spec.
Qed.

Lemma FileSuggest_markdown_by_path_witness :
  In (mdFile "notes/" "Todo")
     (@SettingsTs.FileSuggest_getSuggestions demoHost demoApp (js ""))
  /\ In (File (mdFile "notes/" "Todo")) (@getAllLoadedFiles demoHost demoApp)
  /\ extension (mdFile "notes/" "Todo") = js "md".
Proof.
  assert (In (mdFile "notes/" "Todo")
            (@SettingsTs.FileSuggest_getSuggestions demoHost demoApp (js "")))
    as Hin by (vm_compute; auto).
  split; [exact Hin|].
  destruct (@FileSuggest_markdown_by_path demoHost demoApp (js "")
              (mdFile "notes/" "Todo") Hin) as (Hf & Hext & _).
  split; [exact Hf | exact Hext].
Defined.

(** The match reads the path, not the file name or the base name: a query
    naming the folder finds the note, and the picture next to it stays
    out even for the empty query. *)
Lemma FileSuggest_path_examples :
  map path (@SettingsTs.FileSuggest_getSuggestions demoHost demoApp (js "NOTES/"))
  = [js "notes/Todo.md"]
  /\ contains (asciiLower (name (mdFile "notes/" "Todo")))
              (asciiLower (js "NOTES/")) = false
  /\ map path (@SettingsTs.FileSuggest_getSuggestions demoHost demoApp (js ""))
     = [js "Home.md"; js "notes/Todo.md"].
Proof. repeat split. Qed.

(* ===================================================================== *)
(** ** What the tab shows                                                 *)
(* ===================================================================== *)

Ltac display_cases st :=
  destruct (workspacesMode st);
  destruct (getDailynotesAutorun (app st));
  destruct (workspacePlugin st) as [[[|] ?]|];
  destruct (getDataviewPlugin (app st));
  destruct (truthy (get "useMoment" (settings st)));
  try destruct (truthy (get "openOnStartup" (settings st))).

(** C5. In every state [display] renders exactly one homepage entry: the
    date-format control when [useMoment] is set and workspaces mode is
    off, and the plain text field in every other case, never both and
    never neither. It holds for both copies of the module. *)
Theorem display_one_homepage_entry `{H : Host} {M : Main} (st : State) :
  let moment :=
    truthy (get "useMoment" (settings st)) && negb (workspacesMode st) in
  (length (List.filter isHomepageEntry (containerEl (SettingsTs.display st))) = 1
   /\ existsb isMomentEntry (containerEl (SettingsTs.display st)) = moment
   /\ existsb isTextEntry (containerEl (SettingsTs.display st)) = negb moment)
  /\ (length (List.filter isHomepageEntry (containerEl (Part000.display st))) = 1
      /\ existsb isMomentEntry (containerEl (Part000.display st)) = moment
      /\ existsb isTextEntry (containerEl (Part000.display st)) = negb moment).
Proof.
  unfold SettingsTs.display, Part000.display. cbv zeta.
  display_cases st; repeat split.
Qed.

(** C10. [addDropdown] offers the values of its enumeration, each as both
    value and label, in declaration order, and selects the value stored in
    the property it is bound to. The dropdowns [display] builds are the
    view dropdown with the four [View] values and the two opening-method
    dropdowns with the three [Mode] values. *)
Theorem addDropdown_options `{H : Host} {M : Main} (st : State) :
  (forall nm setting source,
      dropdownOf (Row (SettingsTs.addDropdown nm setting source st))
      = Some (setting, {| options := optionsOf (Object_values source);
                          selected := get setting (settings st) |})
      /\ dropdownOf (Row (Part000.addDropdown nm setting source st))
         = Some (setting, {| options := optionsOf (Object_values source);
                             selected := get setting (settings st) |}))
  /\ omap dropdownOf (containerEl (SettingsTs.display st))
     = [ ("view", {| options := optionsOf viewValues;
                     selected := get "view" (settings st) |});
         ("openMode", {| options := optionsOf modeValues;
                         selected := get "openMode" (settings st) |});
         ("manualOpenMode", {| options := optionsOf modeValues;
                               selected := get "manualOpenMode" (settings st) |}) ]
  /\ omap dropdownOf (containerEl (Part000.display st))
     = [ ("openMode", {| options := optionsOf modeValues;
                         selected := get "openMode" (settings st) |});
         ("manualOpenMode", {| options := optionsOf modeValues;
                               selected := get "manualOpenMode" (settings st) |});
         ("view", {| options := optionsOf viewValues;
                     selected := get "view" (settings st) |}) ]
  /\ Object_values SettingsTs.Mode = modeValues
  /\ Object_values SettingsTs.View = viewValues
  /\ Object_values Part000.Mode = modeValues
  /\ Object_values Part000.View = viewValues
  /\ length modeValues = 3 /\ length viewValues = 4.
Proof.
  split.
  - intros nm setting source.
    unfold SettingsTs.addDropdown, Part000.addDropdown. simpl.
    pose proof (addOptions_options (Object_values source) newDropdown) as Ho.
    pose proof (addOptions_selected (Object_values source) newDropdown) as Hs.
    destruct (fold_left _ _ _) as [o s]. simpl in *. subst. split; reflexivity.
  - unfold SettingsTs.display, Part000.display. cbv zeta.
    display_cases st; repeat split.
Qed.

(* ===================================================================== *)
(** ** The preferences record                                             *)
(* ===================================================================== *)

Lemma settings_display_SettingsTs `{H : Host} {M : Main} (st : State) :
  settings (SettingsTs.display st) = settings st.
Proof. reflexivity. Qed.

Lemma settings_display_Part000 `{H : Host} {M : Main} (st : State) :
  settings (Part000.display st) = settings st.
Proof. reflexivity. Qed.

Lemma insert_onlyWrites (k : string) (x : value) (m : gmap string value) :
  onlyWrites k m (<[k := x]> m).
Proof. intros k' Hne. now apply lookup_insert_ne. Qed.

(** C6. Provided the two plugin callbacks [setIcon] and [setReversion]
    do not touch the preferences, every [onChange] handler the tab
    installs (toggle, dropdown, homepage text field, date format) that
    returns has written the one property it is bound to: the record
    afterwards is the record before with that property set, so every other
    property reads as before; saving does not change the record. Toggle
    and dropdown handlers always return, the text handler returns on every
    string. It holds for both copies of the module. *)
Theorem onChange_writes_only_bound `{H : Host} {M : Main}
    (c : Component) (v : value) (st : State) :
  (forall v st, settings (setIcon v st) = settings st) ->
  (forall v st, settings (setReversion v st) = settings st) ->
  (forall st',
      SettingsTs.onChange c v st = Ok st' ->
      (exists x, settings st' = <[boundOf c := x]> (settings st))
      /\ onlyWrites (boundOf c) (settings st) (settings st'))
  /\ (forall st',
      Part000.onChange c v st = Ok st' ->
      (exists x, settings st' = <[boundOf c := x]> (settings st))
      /\ onlyWrites (boundOf c) (settings st) (settings st'))
  /\ ((forall suggestor homepage, c <> Text suggestor homepage)
      \/ (exists s, v = VStr s) ->
      (exists st', SettingsTs.onChange c v st = Ok st')
      /\ (exists st', Part000.onChange c v st = Ok st'))
  /\ settings (saveSettings st) = settings st.
Proof.
  intros Hicon Hrev.
  assert (forall (st st' : State) k,
             (exists x, settings st' = <[k := x]> (settings st)) ->
             (exists x, settings st' = <[k := x]> (settings st))
             /\ onlyWrites k (settings st) (settings st')) as Hframe.
  { intros s0 s1 k [x E]. split; [eauto|]. rewrite E. apply insert_onlyWrites. }
  assert (forall cb w (s0 : State),
             settings (SettingsTs.runCallback cb w s0) = settings s0) as Hcb1.
  { intros [| |] w s0; simpl; auto. }
  assert (forall cb w (s0 : State),
             settings (Part000.runCallback cb w s0) = settings s0) as Hcb2.
  { intros [| |] w s0; simpl; auto. }
  split; [|split; [|split; [|reflexivity]]].
  - intros st' E. apply Hframe.
    destruct c as [df sh|sug hp|sh setting [cb|]|d setting]; simpl in E.
    + injection E as <-. eexists; reflexivity.
    + unfold SettingsTs.textOnChange in E.
      destruct (SettingsTs.sanitiseNote v) as [note|e]; simpl in E;
        [|discriminate].
      injection E as <-. eexists; reflexivity.
    + injection E as <-. rewrite Hcb1. eexists; reflexivity.
    + injection E as <-. eexists; reflexivity.
    + injection E as <-. eexists; reflexivity.
  - intros st' E. apply Hframe.
    destruct c as [df sh|sug hp|sh setting [cb|]|d setting]; simpl in E.
    + injection E as <-. eexists; reflexivity.
    + unfold Part000.textOnChange in E.
      destruct (Part000.sanitiseNote v) as [note|e]; simpl in E;
        [|discriminate].
      injection E as <-. eexists; reflexivity.
    + injection E as <-. rewrite Hcb2. eexists; reflexivity.
    + injection E as <-. eexists; reflexivity.
    + injection E as <-. eexists; reflexivity.
  - intros Hv.
    destruct c as [df sh|sug hp|sh setting cb|d setting]; simpl;
      try (split; eexists; reflexivity).
    destruct Hv as [Hv|[s ->]]; [now destruct (Hv sug hp)|].
    unfold SettingsTs.textOnChange, Part000.textOnChange. simpl.
    destruct (matches_blank s); simpl; split; eexists; reflexivity.
Qed.

Lemma onChange_writes_only_bound_witness :
  (forall v st, settings (@setIcon demoHost demoMain v st) = settings st)
  /\ (forall v st, settings (@setReversion demoHost demoMain v st) = settings st)
  /\ exists st',
      @Part000.onChange demoHost demoMain
        (Toggle (VBool false) "pin" None) (VBool true)
        (demoState Part000.DEFAULT) = Ok st'
      /\ onlyWrites "pin" Part000.DEFAULT (settings st').
Proof.
  split; [reflexivity|]. split; [reflexivity|].
  destruct (@onChange_writes_only_bound demoHost demoMain
              (Toggle (VBool false) "pin" None) (VBool true)
              (demoState Part000.DEFAULT)
              (fun _ _ => eq_refl) (fun _ _ => eq_refl))
    as (_ & F & R & _).
  destruct R as [_ [st' E]]; [left; discriminate|].
  exists st'. split; [exact E|]. exact (proj2 (F st' E)).
Defined.

(** C7, as amended. In each copy of the module [DEFAULT] has exactly the
    fields its [HomepageSettings] interface declares, each bound to a
    primitive value of the declared type, and its [version] is the integer
    2. The note name, workspace name, date format, the toggle flags, the
    view choice, [pin] and [autoCreate] are in both copies; [autoScroll]
    (with [openOnStartup]) is a field of the later copy only. *)
Theorem DEFAULT_matches_interface :
  (dom SettingsTs.DEFAULT = list_to_set (map fst SettingsTs.HomepageSettings)
   /\ Forall (fun '(k, t) =>
                exists v, SettingsTs.DEFAULT !! k = Some v /\ hasType v t = true)
             SettingsTs.HomepageSettings
   /\ SettingsTs.DEFAULT !! "version" = Some (VNum 2)
   /\ Forall (fun k => is_Some (SettingsTs.DEFAULT !! k))
             [ "defaultNote"; "workspace"; "momentFormat"; "useMoment";
               "workspaceEnabled"; "hasRibbonIcon"; "openMode";
               "manualOpenMode"; "view"; "revertView"; "refreshDataview";
               "pin"; "autoCreate" ])
  /\ (dom Part000.DEFAULT = list_to_set (map fst Part000.HomepageSettings)
      /\ Forall (fun '(k, t) =>
                   exists v, Part000.DEFAULT !! k = Some v /\ hasType v t = true)
                Part000.HomepageSettings
      /\ Part000.DEFAULT !! "version" = Some (VNum 2)
      /\ Forall (fun k => is_Some (Part000.DEFAULT !! k))
                [ "defaultNote"; "workspace"; "momentFormat"; "useMoment";
                  "workspaceEnabled"; "openOnStartup"; "hasRibbonIcon";
                  "openMode"; "manualOpenMode"; "view"; "revertView";
                  "refreshDataview"; "pin"; "autoCreate"; "autoScroll" ])
  /\ Part000.DEFAULT !! "autoScroll" = Some (VBool false)
  /\ Part000.DEFAULT !! "openOnStartup" = Some (VBool true).
Proof.
  split; [|split].
  - split; [apply (bool_decide_unpack _); vm_compute; exact I|].
    split; [repeat constructor; eexists; split; reflexivity|].
    split; [reflexivity|]. repeat constructor; eexists; reflexivity.
  - split; [apply (bool_decide_unpack _); vm_compute; exact I|].
    split; [repeat constructor; eexists; split; reflexivity|].
    split; [reflexivity|]. repeat constructor; eexists; reflexivity.
  - split; reflexivity.
Qed.

(** C7 as worded fails on [src/settings.ts]: its [DEFAULT] has no
    auto-scroll flag, and its interface declares none. *)
Lemma DEFAULT_settings_ts_no_autoScroll :
  SettingsTs.DEFAULT !! "autoScroll" = None
  /\ ~ In "autoScroll" (map fst SettingsTs.HomepageSettings)
  /\ size SettingsTs.DEFAULT = 14.
Proof.
  split; [reflexivity|]. split; [|reflexivity].
  simpl. intros C. repeat (destruct C as [C|C]; [discriminate C|]). exact C.
Qed.

(* ===================================================================== *)
(** ** Further checks of the model                                        *)
(* ===================================================================== *)

(** The text field [display] renders is bound to [workspace] in workspaces
    mode and to [defaultNote] otherwise, and gets the matching
    suggester. *)
Lemma display_text_entry `{H : Host} {M : Main} (st : State) (r : Setting)
    (suggestor : Suggestor) (homepage : string) :
  In (Row r) (containerEl (SettingsTs.display st))
  \/ In (Row r) (containerEl (Part000.display st)) ->
  component r = Some (Text suggestor homepage) ->
  homepage = (if workspacesMode st then "workspace" else "defaultNote")
  /\ suggestor = (if workspacesMode st then WorkspaceSuggest else FileSuggest).
Proof.
  unfold SettingsTs.display, Part000.display. cbv zeta.
  intros Hin Hc. revert Hin.
  display_cases st; simpl; intros [Hin|Hin];
    repeat (destruct Hin as [Hin|Hin];
            [ first [ discriminate Hin
                    | injection Hin as <-; simpl in Hc;
                      first [ discriminate Hc
                            | injection Hc as <- <-; split; reflexivity ] ]
            | ]);
    destruct Hin.
Qed.

Example isWhiteSpace_units :
  map isWhiteSpace [9; 10; 13; 14; 32; 65; 160; 6158; 8192; 8202; 8203;
                    8232; 12288; 65279]%N
  = [true; true; true; false; true; false; true; false; true; true; false;
     true; true; true].
Proof. reflexivity. Qed.

Example matches_blank_units :
  matches_blank (js "") = true
  /\ matches_blank [32; 9; 10; 160]%N = true
  /\ matches_blank (js "  Home ") = false
  /\ matches_blank (js " . ") = false.
Proof. repeat split. Qed.

(** A typed path is stored normalised, the other properties stay, and the
    record is saved; a value without [match] makes the handler throw and
    nothing is stored. *)
Example textOnChange_examples :
  (exists st,
      @SettingsTs.textOnChange demoHost "defaultNote"
        (VStr (js "notes//Todo/")) (demoState SettingsTs.DEFAULT) = Ok st
      /\ settings st !! "defaultNote" = Some (VStr (js "notes/Todo"))
      /\ settings st !! "workspace" = Some (VStr (js "Home"))
      /\ data st = Some (settings st))
  /\ @Part000.textOnChange demoHost "defaultNote" VUndef
       (demoState Part000.DEFAULT)
     = Throw (TypeError "Cannot read properties of undefined").
Proof. split; [eexists; repeat split | reflexivity]. Qed.

(* ===================================================================== *)
(** ** More on sanitisation and the text field                            *)
(* ===================================================================== *)

(** X1. [sanitiseNote], case by case: [null] comes back for [null] and for
    blank strings only, a string comes back for non-blank strings only and
    is the normalised path, and the call throws exactly on the values that
    are neither [null] nor a string. Both copies. *)
Theorem sanitiseNote_cases `{H : Host} (v : value) :
  (SettingsTs.sanitiseNote v = Ok VNull
   <-> v = VNull \/ exists s, v = VStr s /\ Blank s)
  /\ (forall t, SettingsTs.sanitiseNote v = Ok (VStr t)
      <-> exists s, v = VStr s /\ ~ Blank s /\ t = normalizePath s)
  /\ ((exists e, SettingsTs.sanitiseNote v = Throw e)
      <-> v <> VNull /\ forall s, v <> VStr s)
  /\ (forall r, SettingsTs.sanitiseNote v = Ok r ->
      r = VNull \/ exists t, r = VStr t)
  /\ Part000.sanitiseNote v = SettingsTs.sanitiseNote v.
Proof.
  assert (forall s, matches_blank s = false <-> ~ Blank s) as NB.
  { intros s. rewrite <- matches_blank_Blank.
    destruct (matches_blank s); split; try congruence; auto. }
  split; [|split; [|split; [|split]]].
  - split.
    + destruct v as [| |b|n|s]; simpl; try discriminate; auto.
      destruct (matches_blank s) eqn:E; [|discriminate].
      intros _. right. exists s. split; [reflexivity|].
      now apply matches_blank_Blank.
    + intros [->|(s & -> & B)]; [reflexivity|]. simpl.
      apply matches_blank_Blank in B. now rewrite B.
  - intros t. split.
    + destruct v as [| |b|n|s]; simpl; try discriminate.
      destruct (matches_blank s) eqn:E; [discriminate|].
      intros [= <-]. exists s. repeat split. now apply NB.
    + intros (s & -> & B & ->). simpl. apply NB in B. now rewrite B.
  - split.
    + intros [e E]. destruct v as [| |b|n|s]; simpl in E;
        try discriminate E; try (split; [discriminate | intros; discriminate]).
      destruct (matches_blank s); discriminate E.
    + intros [N S]. destruct v as [| |b|n|s]; simpl; eauto.
      * now destruct N.
      * now destruct (S s).
  - intros r. destruct v as [| |b|n|s]; simpl; try discriminate.
    + intros [= <-]. now left.
    + destruct (matches_blank s); intros [= <-]; eauto.
  - destruct v; reflexivity.
Qed.



(* ===================================================================== *)
(** ** How the handlers compose                                           *)
(* ===================================================================== *)

Section Handlers.
Context `{H : Host} {M : Main}.
Hypothesis setIcon_settings :
  forall v st, settings (setIcon v st) = settings st.
Hypothesis setReversion_settings :
  forall v st, settings (setReversion v st) = settings st.

Lemma runCallback_settings_SettingsTs cb v (st : State) :
  settings (SettingsTs.runCallback cb v st) = settings st.
Proof. destruct cb; simpl; auto. Qed.

Lemma runCallback_settings_Part000 cb v (st : State) :
  settings (Part000.runCallback cb v st) = settings st.
Proof. destruct cb; simpl; auto. Qed.

(** What a handler writes depends on the control and on the value it is
    given, not on the state it runs in. *)
Lemma onChange_written_SettingsTs (c : Component) (v : value) :
  exists x, forall st st',
    SettingsTs.onChange c v st = Ok st' ->
    settings st' = <[boundOf c := x]> (settings st).
Proof.
  destruct c as [df sh|sug hp|sh setting [cb|]|d setting]; simpl.
  - exists v. now intros st st' [= <-].
  - unfold SettingsTs.textOnChange.
    destruct (SettingsTs.sanitiseNote v) as [note|e]; simpl.
    + eexists. now intros st st' [= <-].
    + exists v. discriminate.
  - exists v. intros st st' [= <-].
    now rewrite runCallback_settings_SettingsTs.
  - exists v. now intros st st' [= <-].
  - exists v. now intros st st' [= <-].
Qed.

Lemma onChange_written_Part000 (c : Component) (v : value) :
  exists x, forall st st',
    Part000.onChange c v st = Ok st' ->
    settings st' = <[boundOf c := x]> (settings st).
Proof.
  destruct c as [df sh|sug hp|sh setting [cb|]|d setting]; simpl.
  - exists v. now intros st st' [= <-].
  - unfold Part000.textOnChange.
    destruct (Part000.sanitiseNote v) as [note|e]; simpl.
    + eexists. now intros st st' [= <-].
    + exists v. discriminate.
  - exists v. intros st st' [= <-].
    now rewrite runCallback_settings_Part000.
  - exists v. now intros st st' [= <-].
  - exists v. now intros st st' [= <-].
Qed.

(** X3. Changes to two different properties commute: whichever of the two
    handlers runs first, the preferences record ends up the same. Both
    copies, provided [setIcon] and [setReversion] leave the record
    alone. *)
Theorem onChange_commute (c1 c2 : Component) (v1 v2 : value) (st : State) :
  boundOf c1 <> boundOf c2 ->
  (forall s1 s12 s2 s21,
      SettingsTs.onChange c1 v1 st = Ok s1 ->
      SettingsTs.onChange c2 v2 s1 = Ok s12 ->
      SettingsTs.onChange c2 v2 st = Ok s2 ->
      SettingsTs.onChange c1 v1 s2 = Ok s21 ->
      settings s12 = settings s21)
  /\ (forall s1 s12 s2 s21,
      Part000.onChange c1 v1 st = Ok s1 ->
      Part000.onChange c2 v2 s1 = Ok s12 ->
      Part000.onChange c2 v2 st = Ok s2 ->
      Part000.onChange c1 v1 s2 = Ok s21 ->
      settings s12 = settings s21).
Proof.
  intros Hne. split; intros s1 s12 s2 s21 E1 E12 E2 E21.
  - destruct (onChange_written_SettingsTs c1 v1) as [x1 W1].
    destruct (onChange_written_SettingsTs c2 v2) as [x2 W2].
    rewrite (W2 _ _ E12), (W1 _ _ E1), (W1 _ _ E21), (W2 _ _ E2).
    now apply insert_insert_ne.
  - destruct (onChange_written_Part000 c1 v1) as [x1 W1].
    destruct (onChange_written_Part000 c2 v2) as [x2 W2].
    rewrite (W2 _ _ E12), (W1 _ _ E1), (W1 _ _ E21), (W2 _ _ E2).
    now apply insert_insert_ne.
Qed.

(** X4. The last change to a property wins: after two handlers bound to
    the same property have run, the record is the one the second handler
    alone would have left. Both copies, under the same proviso. *)
Theorem onChange_last_wins (c1 c2 : Component) (v1 v2 : value) (st : State) :
  boundOf c1 = boundOf c2 ->
  (forall s1 s12 s2,
      SettingsTs.onChange c1 v1 st = Ok s1 ->
      SettingsTs.onChange c2 v2 s1 = Ok s12 ->
      SettingsTs.onChange c2 v2 st = Ok s2 ->
      settings s12 = settings s2)
  /\ (forall s1 s12 s2,
      Part000.onChange c1 v1 st = Ok s1 ->
      Part000.onChange c2 v2 s1 = Ok s12 ->
      Part000.onChange c2 v2 st = Ok s2 ->
      settings s12 = settings s2).
Proof.
  intros Heq. split; intros s1 s12 s2 E1 E12 E2.
  - destruct (onChange_written_SettingsTs c1 v1) as [x1 W1].
    destruct (onChange_written_SettingsTs c2 v2) as [x2 W2].
    rewrite (W2 _ _ E12), (W1 _ _ E1), (W2 _ _ E2), Heq.
    apply insert_insert_eq.
  - destruct (onChange_written_Part000 c1 v1) as [x1 W1].
    destruct (onChange_written_Part000 c2 v2) as [x2 W2].
    rewrite (W2 _ _ E12), (W1 _ _ E1), (W2 _ _ E2), Heq.
    apply insert_insert_eq.
Qed.

Hypothesis setIcon_data : forall v st, data (setIcon v st) = data st.
Hypothesis setReversion_data : forall v st, data (setReversion v st) = data st.


End Handlers.

Lemma onChange_commute_witness :
  exists s12 s21,
    (s1 ← @SettingsTs.onChange demoHost demoMain
            (Toggle (VBool false) "pin" None) (VBool true)
            (demoState SettingsTs.DEFAULT);
     @SettingsTs.onChange demoHost demoMain
       (Text FileSuggest "defaultNote") (VStr (js "Todo")) s1) = Ok s12
    /\ (s2 ← @SettingsTs.onChange demoHost demoMain
               (Text FileSuggest "defaultNote") (VStr (js "Todo"))
               (demoState SettingsTs.DEFAULT);
        @SettingsTs.onChange demoHost demoMain
          (Toggle (VBool false) "pin" None) (VBool true) s2) = Ok s21
    /\ settings s12 = settings s21.
Proof.
  do 2 eexists. split; [reflexivity|]. split; [reflexivity|].
  refine (proj1 (@onChange_commute demoHost demoMain
                   (fun _ _ => eq_refl) (fun _ _ => eq_refl)
                   (Toggle (VBool false) "pin" None)
                   (Text FileSuggest "defaultNote")
                   (VBool true) (VStr (js "Todo"))
                   (demoState SettingsTs.DEFAULT) _)
                _ _ _ _ eq_refl eq_refl eq_refl eq_refl).
  discriminate.
Defined.

Lemma onChange_last_wins_witness :
  exists s12 s2,
    (s1 ← @Part000.onChange demoHost demoMain
            (Toggle (VBool false) "pin" None) (VBool true)
            (demoState Part000.DEFAULT);
     @Part000.onChange demoHost demoMain
       (Toggle (VBool true) "pin" None) (VBool false) s1) = Ok s12
    /\ @Part000.onChange demoHost demoMain
         (Toggle (VBool true) "pin" None) (VBool false)
         (demoState Part000.DEFAULT) = Ok s2
    /\ settings s12 = settings s2.
Proof.
  do 2 eexists. split; [reflexivity|]. split; [reflexivity|].
  exact (proj2 (@onChange_last_wins demoHost demoMain
                  (fun _ _ => eq_refl) (fun _ _ => eq_refl)
                  (Toggle (VBool false) "pin" None)
                  (Toggle (VBool true) "pin" None)
                  (VBool true) (VBool false)
                  (demoState Part000.DEFAULT) eq_refl)
               _ _ _ eq_refl eq_refl eq_refl).
Defined.


Lemma sanitiseNote_copies_agree_aux `{H : Host} (v : value) :
  SettingsTs.sanitiseNote v = Part000.sanitiseNote v.
Proof. destruct v; reflexivity. Qed.

(** X6. The two copies of the module handle a change alike: on the same
    control, value and state, either both handlers throw the same
    exception or both return, with the same preferences record, the same
    persisted data and the same host handle. For the text field this
    holds for the two properties it is ever bound to. *)
Theorem onChange_copies_agree `{H : Host} {M : Main}
    (c : Component) (v : value) (st : State) :
  (forall suggestor homepage,
      c = Text suggestor homepage ->
      homepage = "defaultNote" \/ homepage = "workspace") ->
  (forall e, SettingsTs.onChange c v st = Throw e
             <-> Part000.onChange c v st = Throw e)
  /\ (forall s1, SettingsTs.onChange c v st = Ok s1 ->
      exists s2, Part000.onChange c v st = Ok s2
                 /\ settings s2 = settings s1
                 /\ data s2 = data s1
                 /\ app s2 = app s1).
Proof.
  intros Hhp.
  destruct c as [df sh|sug hp|sh setting [[| |]|]|d setting]; simpl;
    try (split; [intros e; split; discriminate
                | intros s1 [= <-]; eexists; repeat split]).
  unfold SettingsTs.textOnChange, Part000.textOnChange.
  rewrite sanitiseNote_copies_agree_aux.
  assert (get hp SettingsTs.DEFAULT = get hp Part000.DEFAULT) as ->
    by (destruct (Hhp _ _ eq_refl) as [->| ->]; reflexivity).
  destruct (Part000.sanitiseNote v) as [note|e']; simpl.
  - split; [intros e; split; discriminate|].
    intros s1 [= <-]. eexists. repeat split.
  - split; [reflexivity|discriminate].
Qed.

Lemma onChange_copies_agree_witness :
  exists s1 s2,
    @SettingsTs.onChange demoHost demoMain
      (Text WorkspaceSuggest "workspace") (VStr (js "Writing"))
      (demoState SettingsTs.DEFAULT) = Ok s1
    /\ @Part000.onChange demoHost demoMain
         (Text WorkspaceSuggest "workspace") (VStr (js "Writing"))
         (demoState SettingsTs.DEFAULT) = Ok s2
    /\ settings s2 = settings s1.
Proof.
  eexists.
  destruct (@onChange_copies_agree demoHost demoMain
              (Text WorkspaceSuggest "workspace") (VStr (js "Writing"))
              (demoState SettingsTs.DEFAULT)) as [_ A].
  - intros sug hp [= _ <-]. now right.
  - destruct (A _ eq_refl) as (s2 & E2 & S & _).
    exists s2. split; [reflexivity|]. split; assumption.
Defined.

(* ===================================================================== *)
(** ** The rows of the tab                                                *)
(* ===================================================================== *)

(** Breaks a membership in the rendered list down to the row it is. *)
Ltac split_in :=
  repeat match goal with
  | Hin : In _ (_ ++ _) |- _ =>
      apply in_app_or in Hin; destruct Hin as [Hin|Hin]
  | Hin : In _ (map _ _) |- _ =>
      let y := fresh "row" in
      let E := fresh "E" in
      apply in_map_iff in Hin; destruct Hin as (y & E & Hin)
  | Hin : In _ (_ :: _) |- _ => destruct Hin as [Hin|Hin]
  | Hin : In _ [] |- _ => destruct Hin
  | Hin : In _ (if ?b then _ else _) |- _ => destruct b eqn:?
  | Hin : In _ (match ?o with Some _ => _ | None => _ end) |- _ =>
      destruct o as [[[|] ?]|] eqn:?
  | E : Row _ = Row _ |- _ => injection E as E
  | E : Html _ = Row _ |- _ => discriminate E
  end.

Section Rows.
Context `{H : Host} {M : Main}.

(** The properties written by the controls of the tab, in row order. *)
Lemma boundSettings_SettingsTs (st : State) :
  boundSettings (containerEl (SettingsTs.display st))
  = [ if truthy (get "useMoment" (settings st)) && negb (workspacesMode st)
      then "momentFormat"
      else if workspacesMode st then "workspace" else "defaultNote";
      "useMoment" ]
    ++ (if workspacePluginEnabled (workspacePlugin st)
        then [ "workspaceEnabled" ] else [])
    ++ [ "hasRibbonIcon"; "view"; "revertView"; "openMode";
         "manualOpenMode"; "autoCreate"; "pin" ]
    ++ (if getDataviewPlugin (app st) then [ "refreshDataview" ] else []).
Proof.
  unfold SettingsTs.display. cbv zeta.
  display_cases st; reflexivity.
Qed.

Lemma boundSettings_Part000 (st : State) :
  boundSettings (containerEl (Part000.display st))
  = [ if truthy (get "useMoment" (settings st)) && negb (workspacesMode st)
      then "momentFormat"
      else if workspacesMode st then "workspace" else "defaultNote";
      "useMoment" ]
    ++ (if workspacePluginEnabled (workspacePlugin st)
        then [ "workspaceEnabled" ] else [])
    ++ [ "openOnStartup"; "hasRibbonIcon"; "openMode"; "manualOpenMode";
         "autoCreate"; "pin"; "view"; "revertView"; "autoScroll" ]
    ++ (if getDataviewPlugin (app st) then [ "refreshDataview" ] else []).
Proof.
  unfold Part000.display. cbv zeta.
  display_cases st; reflexivity.
Qed.

Lemma momentEntry_SettingsTs (st : State) :
  existsb isMomentEntry (containerEl (SettingsTs.display st))
  = truthy (get "useMoment" (settings st)) && negb (workspacesMode st)
  /\ existsb isTextEntry (containerEl (SettingsTs.display st))
     = negb (truthy (get "useMoment" (settings st))
             && negb (workspacesMode st)).
Proof.
  unfold SettingsTs.display. cbv zeta.
  display_cases st; split; reflexivity.
Qed.

Lemma momentEntry_Part000 (st : State) :
  existsb isMomentEntry (containerEl (Part000.display st))
  = truthy (get "useMoment" (settings st)) && negb (workspacesMode st)
  /\ existsb isTextEntry (containerEl (Part000.display st))
     = negb (truthy (get "useMoment" (settings st))
             && negb (workspacesMode st)).
Proof.
  unfold Part000.display. cbv zeta.
  display_cases st; split; reflexivity.
Qed.

Lemma shown_SettingsTs (st : State) (r : Setting) :
  In (Row r) (containerEl (SettingsTs.display st)) ->
  match component r with
  | Some (Toggle shown setting _) => shown = get setting (settings st)
  | Some (MomentFormat defaultFormat shown) =>
      shown = get "momentFormat" (settings st)
      /\ defaultFormat = js "YYYY-MM-DD"
  | _ => True
  end.
Proof.
  unfold SettingsTs.display. cbv zeta. simpl containerEl.
  intros Hin. split_in; subst; simpl;
    repeat match goal with
           | |- context [if ?b then _ else _] => destruct b; simpl
           end; auto.
Qed.

Lemma shown_Part000 (st : State) (r : Setting) :
  In (Row r) (containerEl (Part000.display st)) ->
  match component r with
  | Some (Toggle shown setting _) => shown = get setting (settings st)
  | Some (MomentFormat defaultFormat shown) =>
      shown = get "momentFormat" (settings st)
      /\ defaultFormat = js "YYYY-MM-DD"
  | _ => True
  end.
Proof.
  unfold Part000.display. cbv zeta. simpl containerEl.
  intros Hin. split_in; subst; simpl;
    repeat match goal with
           | |- context [if ?b then _ else _] => destruct b; simpl
           end; auto.
Qed.

End Rows.

(** X7. Which controls the tab holds, and in which order. Both copies
    start with the homepage entry (bound to [momentFormat] for the date
    format control, else to [workspace] in workspaces mode and to
    [defaultNote] otherwise) and the [useMoment] toggle; the
    [workspaceEnabled] toggle follows exactly when the workspaces plugin
    is enabled, and the [refreshDataview] toggle ends the list exactly
    when Dataview is installed; the fixed rows in between are listed in
    source order. *)
Theorem display_controls `{H : Host} {M : Main} (st : State) :
  let entry :=
    if truthy (get "useMoment" (settings st)) && negb (workspacesMode st)
    then "momentFormat"
    else if workspacesMode st then "workspace" else "defaultNote" in
  let useWorkspaces :=
    if workspacePluginEnabled (workspacePlugin st)
    then [ "workspaceEnabled" ] else [] in
  let refresh :=
    if getDataviewPlugin (app st) then [ "refreshDataview" ] else [] in
  boundSettings (containerEl (SettingsTs.display st))
  = [ entry; "useMoment" ] ++ useWorkspaces
    ++ [ "hasRibbonIcon"; "view"; "revertView"; "openMode";
         "manualOpenMode"; "autoCreate"; "pin" ]
    ++ refresh
  /\ boundSettings (containerEl (Part000.display st))
     = [ entry; "useMoment" ] ++ useWorkspaces
       ++ [ "openOnStartup"; "hasRibbonIcon"; "openMode"; "manualOpenMode";
            "autoCreate"; "pin"; "view"; "revertView"; "autoScroll" ]
       ++ refresh.
Proof.
  split; [apply boundSettings_SettingsTs | apply boundSettings_Part000].
Qed.

Ltac layout_cases st :=
  destruct (truthy (get "useMoment" (settings st)) && negb (workspacesMode st));
  destruct (workspacesMode st);
  destruct (workspacePluginEnabled (workspacePlugin st));
  destruct (getDataviewPlugin (app st)).

Ltac in_concrete :=
  let k := fresh "k" in
  let Hk := fresh "Hk" in
  intros k Hk; simpl in Hk;
  repeat (destruct Hk as [<-|Hk]; [simpl; auto 20|]); destruct Hk.

(** X8. No property has two controls, and every control writes a field
    that the interface of its copy declares; no control writes
    [version]. *)
Theorem display_controls_declared `{H : Host} {M : Main} (st : State) :
  (NoDup (boundSettings (containerEl (SettingsTs.display st)))
   /\ incl (boundSettings (containerEl (SettingsTs.display st)))
           (map fst SettingsTs.HomepageSettings)
   /\ ~ In "version" (boundSettings (containerEl (SettingsTs.display st))))
  /\ (NoDup (boundSettings (containerEl (Part000.display st)))
      /\ incl (boundSettings (containerEl (Part000.display st)))
              (map fst Part000.HomepageSettings)
      /\ ~ In "version" (boundSettings (containerEl (Part000.display st)))).
Proof.
  rewrite boundSettings_SettingsTs, boundSettings_Part000.
  layout_cases st;
    (split; (split; [apply (bool_decide_unpack _); vm_compute; exact I|];
             split; [in_concrete|];
             simpl; intros C;
             repeat (destruct C as [C|C]; [discriminate C|]); exact C)).
Qed.

(** X9. The later copy drops no control: every property with a control
    in [src/settings.ts] has one in the later copy, for the same state,
    and the only controls it adds are those of [openOnStartup] and
    [autoScroll]. *)
Theorem display_controls_grow `{H : Host} {M : Main} (st : State) :
  incl (boundSettings (containerEl (SettingsTs.display st)))
       (boundSettings (containerEl (Part000.display st)))
  /\ forall k,
      In k (boundSettings (containerEl (Part000.display st))) ->
      In k (boundSettings (containerEl (SettingsTs.display st)))
      \/ k = "openOnStartup" \/ k = "autoScroll".
Proof.
  rewrite boundSettings_SettingsTs, boundSettings_Part000.
  layout_cases st; (split; [in_concrete|]);
    intros k Hk; simpl in Hk;
    repeat (destruct Hk as [<-|Hk]; [simpl; auto 20|]); destruct Hk.
Qed.

Lemma display_controls_grow_witness :
  In "pin" (boundSettings (containerEl
              (@Part000.display demoHost demoMain (demoState Part000.DEFAULT))))
  /\ (In "pin" (boundSettings (containerEl
                 (@SettingsTs.display demoHost demoMain
                    (demoState Part000.DEFAULT))))
      \/ "pin" = "openOnStartup" \/ "pin" = "autoScroll").
Proof.
  assert (In "pin" (boundSettings (containerEl
            (@Part000.display demoHost demoMain (demoState Part000.DEFAULT)))))
    as Hin by (vm_compute; auto 20).
  split; [exact Hin|].
  exact (proj2 (@display_controls_grow demoHost demoMain
                  (demoState Part000.DEFAULT)) "pin" Hin).
Defined.

(** X10. Every toggle shows the stored value of the property it writes,
    and the date-format control shows the stored [momentFormat] with
    "YYYY-MM-DD" as its default format. Both copies. *)
Theorem display_shows_stored `{H : Host} {M : Main} (st : State)
    (r : Setting) :
  In (Row r) (containerEl (SettingsTs.display st))
  \/ In (Row r) (containerEl (Part000.display st)) ->
  (forall shown setting callback,
      component r = Some (Toggle shown setting callback) ->
      shown = get setting (settings st))
  /\ (forall defaultFormat shown,
      component r = Some (MomentFormat defaultFormat shown) ->
      shown = get "momentFormat" (settings st)
      /\ defaultFormat = js "YYYY-MM-DD").
Proof.
  intros Hin.
  assert (match component r with
          | Some (Toggle shown setting _) => shown = get setting (settings st)
          | Some (MomentFormat defaultFormat shown) =>
              shown = get "momentFormat" (settings st)
              /\ defaultFormat = js "YYYY-MM-DD"
          | _ => True
          end) as S
    by (destruct Hin; [now apply shown_SettingsTs | now apply shown_Part000]).
  split; intros; now destruct (component r) as [[]|]; simplify_eq.
Qed.

Lemma display_shows_stored_witness :
  In (Row (@SettingsTs.addToggle demoHost "Pin" "pin" None false
             (demoState SettingsTs.DEFAULT)))
     (containerEl (@SettingsTs.display demoHost demoMain
                     (demoState SettingsTs.DEFAULT)))
  /\ VBool false = get "pin" SettingsTs.DEFAULT.
Proof.
  assert (In (Row (@SettingsTs.addToggle demoHost "Pin" "pin" None false
                     (demoState SettingsTs.DEFAULT)))
             (containerEl (@SettingsTs.display demoHost demoMain
                             (demoState SettingsTs.DEFAULT))))
    as Hin by (vm_compute; auto 20).
  split; [exact Hin|].
  exact (proj1 (@display_shows_stored demoHost demoMain
                  (demoState SettingsTs.DEFAULT) _ (or_introl Hin))
           _ _ _ eq_refl).
Defined.

(** X11. A toggle whose callback is [display] (the mode switches) shows
    its new value at once: after its handler has run, the tab has been
    rendered again and every toggle bound to that property shows the
    value just written. Both copies. *)
Theorem toggle_redisplay_shows `{H : Host} {M : Main}
    (setting : string) (v : value) (st : State) :
  (exists st',
      SettingsTs.toggleOnChange setting (Some CbDisplay) v st = Ok st'
      /\ settings st' !! setting = Some v
      /\ forall r shown callback,
          In (Row r) (containerEl st') ->
          component r = Some (Toggle shown setting callback) ->
          shown = v)
  /\ (exists st',
      Part000.toggleOnChange setting (Some CbDisplay) v st = Ok st'
      /\ settings st' !! setting = Some v
      /\ forall r shown callback,
          In (Row r) (containerEl st') ->
          component r = Some (Toggle shown setting callback) ->
          shown = v).
Proof.
  split.
  - exists (SettingsTs.display (saveSettings (assign setting v st))).
    split; [reflexivity|]. split.
    + rewrite settings_display_SettingsTs. apply lookup_insert_eq.
    + intros r shown cb Hin Hc.
      apply shown_SettingsTs in Hin. rewrite Hc in Hin. subst shown.
      unfold get. rewrite settings_saveSettings, settings_assign.
      now rewrite lookup_insert_eq.
  - exists (Part000.display (saveSettings (assign setting v st))).
    split; [reflexivity|]. split.
    + rewrite settings_display_Part000. apply lookup_insert_eq.
    + intros r shown cb Hin Hc.
      apply shown_Part000 in Hin. rewrite Hc in Hin. subst shown.
      unfold get. rewrite settings_saveSettings, settings_assign.
      now rewrite lookup_insert_eq.
Qed.

(** X12. Switching "Use date formatting": once the [useMoment] toggle has
    run with value [v], the tab shows the date-format control if [v] is
    truthy and workspaces mode is off in the new state, and the text
    field otherwise. Both copies. *)
Theorem useMoment_switches_entry `{H : Host} {M : Main}
    (v : value) (st : State) :
  let saved := saveSettings (assign "useMoment" v st) in
  (exists st',
      SettingsTs.toggleOnChange "useMoment" (Some CbDisplay) v st = Ok st'
      /\ existsb isMomentEntry (containerEl st')
         = truthy v && negb (workspacesMode saved)
      /\ existsb isTextEntry (containerEl st')
         = negb (truthy v && negb (workspacesMode saved)))
  /\ (exists st',
      Part000.toggleOnChange "useMoment" (Some CbDisplay) v st = Ok st'
      /\ existsb isMomentEntry (containerEl st')
         = truthy v && negb (workspacesMode saved)
      /\ existsb isTextEntry (containerEl st')
         = negb (truthy v && negb (workspacesMode saved))).
Proof.
  intros saved.
  assert (truthy (get "useMoment" (settings saved)) = truthy v) as Hv.
  { unfold saved, get.
    now rewrite settings_saveSettings, settings_assign, lookup_insert_eq. }
  split.
  - exists (SettingsTs.display saved). split; [reflexivity|].
    rewrite <- Hv. apply momentEntry_SettingsTs.
  - exists (Part000.display saved). split; [reflexivity|].
    rewrite <- Hv. apply momentEntry_Part000.
Qed.

(* ===================================================================== *)
(** ** Disabled rows                                                      *)
(* ===================================================================== *)

Ltac row_cases :=
  split_in; subst; cbn [andb orb negb];
  repeat match goal with
         | |- context [if ?b then _ else _] => destruct b eqn:?
         end;
  try match goal with
      | Hb : hasClass _ _ = _ |- _ => vm_compute in Hb; discriminate Hb
      end;
  vm_compute.

(** X13. In [src/settings.ts] a row is greyed out exactly when workspaces
    mode is on and the row carries the [nv-workspace-hidden] class; the
    rows without that class, which stay usable, are the homepage entry
    and the [workspaceEnabled] and [hasRibbonIcon] toggles. *)
Theorem workspacesMode_disables_SettingsTs `{H : Host} {M : Main}
    (st : State) (r : Setting) :
  In (Row r) (containerEl (SettingsTs.display st)) ->
  (style r = disabledStyle
   <-> workspacesMode st = true /\ hasClass HIDDEN r = true)
  /\ (hasClass HIDDEN r = false
      <-> isHomepageEntry (Row r) = true
          \/ boundSetting (Row r) = Some "workspaceEnabled"
          \/ boundSetting (Row r) = Some "hasRibbonIcon").
Proof.
  unfold SettingsTs.display. cbv zeta. simpl containerEl.
  intros Hin. row_cases;
    (split; split; intros; try discriminate; try reflexivity;
     intuition (try discriminate; auto)).
Qed.

Lemma workspacesMode_disables_SettingsTs_witness :
  In (Row (@SettingsTs.addToggle demoHost "Pin" "pin" None false
             (demoState SettingsTs.DEFAULT)))
     (containerEl (@SettingsTs.display demoHost demoMain
                     (demoState SettingsTs.DEFAULT)))
  /\ style (@SettingsTs.addToggle demoHost "Pin" "pin" None false
              (demoState SettingsTs.DEFAULT)) <> disabledStyle.
Proof.
  assert (In (Row (@SettingsTs.addToggle demoHost "Pin" "pin" None false
                     (demoState SettingsTs.DEFAULT)))
             (containerEl (@SettingsTs.display demoHost demoMain
                             (demoState SettingsTs.DEFAULT))))
    as Hin by (vm_compute; auto 20).
  split; [exact Hin|].
  intros C.
  apply (proj1 (@workspacesMode_disables_SettingsTs demoHost demoMain
                  _ _ Hin)) in C.
  destruct C as [C _]. vm_compute in C. discriminate C.
Defined.

(** X14. In the later copy the rows without the [nv-workspace-hidden]
    class are the homepage entry and the [workspaceEnabled],
    [openOnStartup] and [hasRibbonIcon] toggles; every other row,
    headings included, carries the class and is greyed out in workspaces
    mode. Outside workspaces mode those rows keep an empty style, the
    "Opening method" dropdown apart. *)
Theorem workspacesMode_disables_Part000 `{H : Host} {M : Main}
    (st : State) (r : Setting) :
  In (Row r) (containerEl (Part000.display st)) ->
  (hasClass HIDDEN r = false
   <-> isHomepageEntry (Row r) = true
       \/ boundSetting (Row r) = Some "workspaceEnabled"
       \/ boundSetting (Row r) = Some "openOnStartup"
       \/ boundSetting (Row r) = Some "hasRibbonIcon")
  /\ (isHeading r = true -> hasClass HIDDEN r = true)
  /\ (workspacesMode st = true -> hasClass HIDDEN r = true ->
      style r = "opacity: .5; pointer-events: none !important;")
  /\ (workspacesMode st = false -> hasClass HIDDEN r = true ->
      boundSetting (Row r) <> Some "openMode" ->
      style r = "").
Proof.
  unfold Part000.display. cbv zeta. simpl containerEl.
  destruct (workspacesMode st) eqn:?; intros Hin; row_cases;
    (split; [split|split; [|split]]; intros; try discriminate;
     try reflexivity; try congruence; intuition (try discriminate; auto)).
Qed.

Lemma workspacesMode_disables_Part000_witness :
  In (Row (@Part000.addHeading "Pane"))
     (containerEl (@Part000.display demoHost demoMain
                     (demoState Part000.DEFAULT)))
  /\ hasClass HIDDEN (@Part000.addHeading "Pane") = true.
Proof.
  assert (In (Row (@Part000.addHeading "Pane"))
             (containerEl (@Part000.display demoHost demoMain
                             (demoState Part000.DEFAULT))))
    as Hin by (vm_compute; auto 20).
  split; [exact Hin|].
  exact (proj1 (proj2 (@workspacesMode_disables_Part000 demoHost demoMain
                         _ _ Hin)) eq_refl).
Defined.



(** X16. [display] starts from an empty container: provided the plugin's
    workspace queries do not look at the rendered rows, what it renders
    does not depend on what the tab held before, so rendering twice is
    rendering once and rows never pile up. Both copies. *)
Theorem display_rerender `{H : Host} {M : Main} (els : list Element)
    (st : State) :
  (forall els st, workspacesMode (render els st) = workspacesMode st) ->
  (forall els st, workspacePlugin (render els st) = workspacePlugin st) ->
  (SettingsTs.display (render els st) = SettingsTs.display st
   /\ SettingsTs.display (SettingsTs.display st) = SettingsTs.display st)
  /\ (Part000.display (render els st) = Part000.display st
      /\ Part000.display (Part000.display st) = Part000.display st).
Proof.
  intros Hwm Hwp.
  assert (forall els st, SettingsTs.display (render els st)
                         = SettingsTs.display st) as R1.
  { intros els' st'. unfold SettingsTs.display. cbv zeta.
    rewrite !Hwm, !Hwp. reflexivity. }
  assert (forall els st, Part000.display (render els st)
                         = Part000.display st) as R2.
  { intros els' st'. unfold Part000.display. cbv zeta.
    rewrite !Hwm, !Hwp. reflexivity. }
  split; split; [apply R1 | | apply R2 | ].
  - unfold SettingsTs.display at 2. cbv zeta. apply R1.
  - unfold Part000.display at 2. cbv zeta. apply R2.
Qed.

Lemma display_rerender_witness :
  (forall els st,
      @workspacesMode demoHost demoMain (render els st)
      = @workspacesMode demoHost demoMain st)
  /\ @SettingsTs.display demoHost demoMain
       (@SettingsTs.display demoHost demoMain (demoState SettingsTs.DEFAULT))
     = @SettingsTs.display demoHost demoMain (demoState SettingsTs.DEFAULT).
Proof.
  split; [reflexivity|].
  exact (proj2 (proj1 (@display_rerender demoHost demoMain []
                         (demoState SettingsTs.DEFAULT)
                         (fun _ _ => eq_refl) (fun _ _ => eq_refl)))).
Defined.

(* ===================================================================== *)
(** ** The record keeps its shape                                         *)
(* ===================================================================== *)

Lemma Conforms_insert (interface : list (string * PrimType))
    (o : gmap string value) (k : string) (x : value) :
  (forall t, In (k, t) interface -> hasType x t = true) ->
  Conforms interface o -> Conforms interface (<[k := x]> o).
Proof.
  intros Hx Ho k' t Hin. destruct (decide (k' = k)) as [->|Hne].
  - exists x. rewrite lookup_insert_eq. auto.
  - rewrite lookup_insert_ne by congruence. now apply Ho.
Qed.

Ltac interface_cases Ht :=
  simpl in Ht;
  repeat (destruct Ht as [Ht|Ht];
          [first [discriminate Ht | injection Ht as <- <- | injection Ht as <-]|]);
  try destruct Ht.

Section Typed.
Context `{H : Host} {M : Main}.
Hypothesis setIcon_settings :
  forall v st, settings (setIcon v st) = settings st.
Hypothesis setReversion_settings :
  forall v st, settings (setReversion v st) = settings st.

Lemma or_else_string (note : value) (d : jsstring) :
  note = VNull \/ (exists t, note = VStr t) ->
  hasType (or_else note (VStr d)) TString = true.
Proof.
  intros [->|[[|c t] ->]]; reflexivity.
Qed.

Lemma onChange_conforms_SettingsTs (interface : list (string * PrimType))
    (c : Component) (v : value) (st : State) :
  Offers c v ->
  (forall t, In (boundOf c, t) interface ->
             match c with
             | Text _ _ => t = TString
             | _ => hasType v t = true
             end) ->
  (forall suggestor homepage,
      c = Text suggestor homepage ->
      exists d, get homepage SettingsTs.DEFAULT = VStr d) ->
  Conforms interface (settings st) ->
  exists st', SettingsTs.onChange c v st = Ok st'
              /\ Conforms interface (settings st').
Proof.
  intros Ho Ht Hd HC.
  destruct c as [df sh|sug hp|sh setting cb|d setting]; simpl in *.
  - eexists. split; [reflexivity|]. now apply Conforms_insert.
  - destruct Ho as [s ->]. destruct (Hd _ _ eq_refl) as [d Ed].
    unfold SettingsTs.textOnChange. rewrite Ed. simpl.
    destruct (matches_blank s); simpl;
      (eexists; split; [reflexivity|]); apply Conforms_insert; auto;
      intros t Hin; rewrite (Ht t Hin); apply or_else_string; eauto.
  - eexists. split; [reflexivity|].
    destruct cb as [cb|]; [rewrite runCallback_settings_SettingsTs by auto|];
      now apply Conforms_insert.
  - eexists. split; [reflexivity|]. now apply Conforms_insert.
Qed.

Lemma onChange_conforms_Part000 (interface : list (string * PrimType))
    (c : Component) (v : value) (st : State) :
  Offers c v ->
  (forall t, In (boundOf c, t) interface ->
             match c with
             | Text _ _ => t = TString
             | _ => hasType v t = true
             end) ->
  (forall suggestor homepage,
      c = Text suggestor homepage ->
      exists d, get homepage Part000.DEFAULT = VStr d) ->
  Conforms interface (settings st) ->
  exists st', Part000.onChange c v st = Ok st'
              /\ Conforms interface (settings st').
Proof.
  intros Ho Ht Hd HC.
  destruct c as [df sh|sug hp|sh setting cb|d setting]; simpl in *.
  - eexists. split; [reflexivity|]. now apply Conforms_insert.
  - destruct Ho as [s ->]. destruct (Hd _ _ eq_refl) as [d Ed].
    unfold Part000.textOnChange. rewrite Ed. simpl.
    destruct (matches_blank s); simpl;
      (eexists; split; [reflexivity|]); apply Conforms_insert; auto;
      intros t Hin; rewrite (Ht t Hin); apply or_else_string; eauto.
  - eexists. split; [reflexivity|].
    destruct cb as [cb|]; [rewrite runCallback_settings_Part000 by auto|];
      now apply Conforms_insert.
  - eexists. split; [reflexivity|]. now apply Conforms_insert.
Qed.

Ltac control_cases Hin Hc Ho :=
  split_in; subst;
  repeat match type of Hc with
         | context [if ?b then _ else _] => destruct b
         end;
  simpl in Hc; try discriminate Hc; injection Hc as <-;
  (split; [|intros ? ? [= _ <-]; eexists; reflexivity]);
  let t := fresh "t" in
  let Ht := fresh "Ht" in
  intros t Ht; interface_cases Ht; simpl in Ho;
  try reflexivity;
  try (destruct Ho as [? ->]; reflexivity);
  try (destruct Ho as (? & ? & -> & _); reflexivity).

(** X17. The shape of the record is an invariant of the tab. [DEFAULT]
    has every field of the interface with a value of the declared type;
    and when a control of the tab is given a value of its own kind (a
    boolean for a toggle, one of its options for a dropdown, a string for
    a text input), its handler returns and the record still has every
    field with a value of the declared type. Both copies, provided
    [setIcon] and [setReversion] leave the record alone. *)
Theorem handlers_keep_interface (st0 st : State) (r : Setting)
    (c : Component) (v : value) :
  component r = Some c ->
  Offers c v ->
  (Conforms SettingsTs.HomepageSettings SettingsTs.DEFAULT
   /\ (In (Row r) (containerEl (SettingsTs.display st0)) ->
       Conforms SettingsTs.HomepageSettings (settings st) ->
       exists st', SettingsTs.onChange c v st = Ok st'
                   /\ Conforms SettingsTs.HomepageSettings (settings st')))
  /\ (Conforms Part000.HomepageSettings Part000.DEFAULT
      /\ (In (Row r) (containerEl (Part000.display st0)) ->
          Conforms Part000.HomepageSettings (settings st) ->
          exists st', Part000.onChange c v st = Ok st'
                      /\ Conforms Part000.HomepageSettings (settings st'))).
Proof.
  intros Hc Ho. split; split.
  - intros k t Ht. interface_cases Ht; eexists; split; reflexivity.
  - intros Hin HC.
    enough ((forall t, In (boundOf c, t) SettingsTs.HomepageSettings ->
                       match c with
                       | Text _ _ => t = TString
                       | _ => hasType v t = true
                       end)
            /\ (forall suggestor homepage,
                   c = Text suggestor homepage ->
                   exists d, get homepage SettingsTs.DEFAULT = VStr d))
      as [P1 P2] by (now apply onChange_conforms_SettingsTs).
    clear HC. revert Hin. unfold SettingsTs.display. cbv zeta.
    simpl containerEl. intros Hin. control_cases Hin Hc Ho.
  - intros k t Ht. interface_cases Ht; eexists; split; reflexivity.
  - intros Hin HC.
    enough ((forall t, In (boundOf c, t) Part000.HomepageSettings ->
                       match c with
                       | Text _ _ => t = TString
                       | _ => hasType v t = true
                       end)
            /\ (forall suggestor homepage,
                   c = Text suggestor homepage ->
                   exists d, get homepage Part000.DEFAULT = VStr d))
      as [P1 P2] by (now apply onChange_conforms_Part000).
    clear HC. revert Hin. unfold Part000.display. cbv zeta.
    simpl containerEl. intros Hin. control_cases Hin Hc Ho.
Qed.

End Typed.

Lemma handlers_keep_interface_witness :
  Offers (Dropdown {| options := optionsOf viewValues;
                      selected := VStr (js "Default view") |} "view")
         (VStr (js "Reading view"))
  /\ exists st',
      @Part000.onChange demoHost demoMain
        (Dropdown {| options := optionsOf viewValues;
                     selected := VStr (js "Default view") |} "view")
        (VStr (js "Reading view")) (demoState Part000.DEFAULT) = Ok st'
      /\ Conforms Part000.HomepageSettings (settings st').
Proof.
  assert (Offers (Dropdown {| options := optionsOf viewValues;
                              selected := VStr (js "Default view") |} "view")
                 (VStr (js "Reading view"))) as Ho.
  { exists (js "Reading view"), (js "Reading view").
    split; [reflexivity|]. simpl. auto. }
  split; [exact Ho|].
  destruct (@handlers_keep_interface demoHost demoMain
              (fun _ _ => eq_refl) (fun _ _ => eq_refl)
              (demoState Part000.DEFAULT) (demoState Part000.DEFAULT)
              (@Part000.addDropdown demoHost "Homepage view" "view"
                 Part000.View (demoState Part000.DEFAULT))
              _ (VStr (js "Reading view")) eq_refl Ho)
    as [_ [D K]].
  apply K; [vm_compute; auto 20 | exact D].
Defined.

(* ===================================================================== *)
(** ** More on the suggesters                                             *)
(* ===================================================================== *)

Lemma Substring_trans (a b c : jsstring) :
  Substring a b -> Substring b c -> Substring a c.
Proof.
  intros (p & q & ->) (p' & q' & ->).
  exists (p' ++ p), (q ++ q'). now rewrite <- !app_assoc.
Qed.

Lemma contains_empty (s : jsstring) : contains s [] = true.
Proof. destruct s; reflexivity. Qed.

Lemma filter_all {A} (p : A -> bool) (l : list A) :
  (forall x, p x = true) -> List.filter p l = l.
Proof.
  intros Hp. induction l as [|x l IH]; simpl; [reflexivity|].
  now rewrite Hp, IH.
Qed.

(** X18. Typing more narrows the list: when the lower-cased query occurs
    in the lower-cased longer query, every suggestion for the longer
    query is a suggestion for the shorter one, for notes and for
    workspaces. *)
Theorem getSuggestions_narrow `{H : Host} (a : App)
    (shorter longer : jsstring) :
  Substring (toLowerCase shorter) (toLowerCase longer) ->
  incl (SettingsTs.FileSuggest_getSuggestions a longer)
       (SettingsTs.FileSuggest_getSuggestions a shorter)
  /\ forall out out',
      SettingsTs.WorkspaceSuggest_getSuggestions a shorter = Ok out ->
      SettingsTs.WorkspaceSuggest_getSuggestions a longer = Ok out' ->
      incl out' out.
Proof.
  intros Hsub. split.
  - intros f. rewrite !FileSuggest_is_filter, !filter_In, !contains_spec.
    intros [Hin Hc]. split; [exact Hin|]. eapply Substring_trans; eauto.
  - unfold SettingsTs.WorkspaceSuggest_getSuggestions.
    destruct (getWorkspacePlugin a) as [p|]; [|discriminate].
    intros out out' [= <-] [= <-] w.
    rewrite !filter_In, !contains_spec.
    intros [Hin Hc]. split; [exact Hin|]. eapply Substring_trans; eauto.
Qed.

Lemma getSuggestions_narrow_witness :
  Substring (@toLowerCase demoHost (js "TO")) (@toLowerCase demoHost (js "Todo"))
  /\ incl (@SettingsTs.FileSuggest_getSuggestions demoHost demoApp (js "Todo"))
          (@SettingsTs.FileSuggest_getSuggestions demoHost demoApp (js "TO")).
Proof.
  assert (Substring (@toLowerCase demoHost (js "TO"))
                    (@toLowerCase demoHost (js "Todo"))) as Hs
    by (exists [], (js "do"); reflexivity).
  split; [exact Hs|].
  exact (proj1 (@getSuggestions_narrow demoHost demoApp _ _ Hs)).
Defined.

(** X19. With an empty query (whose lower-casing is empty) nothing is
    filtered out: [FileSuggest] offers every markdown file of the vault
    and [WorkspaceSuggest] every workspace, in their original order. *)
Theorem getSuggestions_empty_query `{H : Host} (a : App) :
  toLowerCase [] = [] ->
  SettingsTs.FileSuggest_getSuggestions a []
  = markdownFiles (getAllLoadedFiles a)
  /\ forall p,
      getWorkspacePlugin a = Some p ->
      SettingsTs.WorkspaceSuggest_getSuggestions a [] = Ok (workspaces p).
Proof.
  intros He. split.
  - rewrite FileSuggest_is_filter, He. apply filter_all.
    intros f. apply contains_empty.
  - intros p Hp. unfold SettingsTs.WorkspaceSuggest_getSuggestions.
    rewrite Hp, He. f_equal. apply filter_all.
    intros w. apply contains_empty.
Qed.

Lemma getSuggestions_empty_query_witness :
  @toLowerCase demoHost [] = []
  /\ map path (@SettingsTs.FileSuggest_getSuggestions demoHost demoApp [])
     = [js "Home.md"; js "notes/Todo.md"]
  /\ @SettingsTs.WorkspaceSuggest_getSuggestions demoHost demoApp []
     = Ok [js "Home"; js "Writing"].
Proof.
  split; [reflexivity|].
  destruct (@getSuggestions_empty_query demoHost demoApp eq_refl) as [F W].
  split; [rewrite F; reflexivity | exact (W _ eq_refl)].
Defined.

(** X20. Picking a suggested workspace. [selectSuggestion] puts the name
    in the input, triggers [input] and closes the list. When the text
    field's handler then runs on that value, a name that is not blank and
    is its own normalised path is stored as it is, so [workspace] names
    an existing workspace; a workspace whose name is blank cannot be
    picked this way, the default "Home" is stored instead. *)
Theorem selectSuggestion_stores_workspace `{H : Host} (a : App)
    (inputStr : jsstring) (p : WorkspacePlugin) (out : list jsstring)
    (workspace : jsstring) (inputEl : InputEl) (st : State) :
  getWorkspacePlugin a = Some p ->
  SettingsTs.WorkspaceSuggest_getSuggestions a inputStr = Ok out ->
  In workspace out ->
  let picked := WorkspaceSuggest_selectSuggestion workspace inputEl in
  inputValue picked = workspace
  /\ suggestOpen picked = false
  /\ last (triggered picked) = Some "input"
  /\ In workspace (workspaces p)
  /\ exists st',
      SettingsTs.textOnChange "workspace" (VStr (inputValue picked)) st
      = Ok st'
      /\ (~ Blank workspace -> normalizePath workspace = workspace ->
          settings st' !! "workspace" = Some (VStr workspace))
      /\ (Blank workspace ->
          settings st' !! "workspace" = Some (VStr (js "Home"))).
Proof.
  intros Hp Hout Hin picked.
  unfold SettingsTs.WorkspaceSuggest_getSuggestions in Hout.
  rewrite Hp in Hout. injection Hout as <-.
  apply filter_In in Hin. destruct Hin as [Hin _].
  split; [reflexivity|]. split; [reflexivity|].
  split; [apply last_snoc|]. split; [exact Hin|].
  unfold SettingsTs.textOnChange. simpl.
  destruct (matches_blank workspace) eqn:B; simpl.
  - eexists. split; [reflexivity|]. simpl. rewrite lookup_insert_eq. split.
    + intros NB. destruct NB. now apply matches_blank_Blank.
    + reflexivity.
  - eexists. split; [reflexivity|]. simpl. rewrite lookup_insert_eq. split.
    + intros _ ->. destruct workspace; [discriminate B | reflexivity].
    + intros Bl. apply matches_blank_Blank in Bl. congruence.
Qed.

Lemma selectSuggestion_stores_workspace_witness :
  In (js "Writing") [js "Writing"]
  /\ exists st',
      @SettingsTs.textOnChange demoHost "workspace"
        (VStr (inputValue (WorkspaceSuggest_selectSuggestion (js "Writing")
                             {| inputValue := js "wri"; triggered := [];
                                suggestOpen := true |})))
        (demoState SettingsTs.DEFAULT) = Ok st'
      /\ settings st' !! "workspace" = Some (VStr (js "Writing")).
Proof.
  split; [now left|].
  destruct (@selectSuggestion_stores_workspace demoHost demoApp (js "wri")
              _ [js "Writing"] (js "Writing")
              {| inputValue := js "wri"; triggered := []; suggestOpen := true |}
              (demoState SettingsTs.DEFAULT) eq_refl eq_refl
              (or_introl eq_refl))
    as (_ & _ & _ & _ & st' & E & S & _).
  exists st'. split; [exact E|]. apply S; [|reflexivity].
  intros C. apply matches_blank_Blank in C. discriminate C.
Defined.

(* ===================================================================== *)
(** ** Instances of the statements above                                  *)
(* ===================================================================== *)

Lemma sanitiseNote_cases_witness :
  (VStr [32; 160]%N = VNull
   \/ exists s, VStr [32; 160]%N = VStr s /\ Blank s)
  /\ @SettingsTs.sanitiseNote demoHost (VStr [32; 160]%N) = Ok VNull.
Proof.
  assert (VStr [32; 160]%N = VNull
          \/ exists s, VStr [32; 160]%N = VStr s /\ Blank s) as Hb
    by (right; exists [32; 160]%N; split; [reflexivity | repeat constructor]).
  split; [exact Hb|].
  exact (proj2 (proj1 (@sanitiseNote_cases demoHost (VStr [32; 160]%N))) Hb).
Defined.

Lemma toggle_redisplay_shows_witness :
  exists st',
    @SettingsTs.toggleOnChange demoHost demoMain "useMoment" (Some CbDisplay)
      (VBool true) (demoState SettingsTs.DEFAULT) = Ok st'
    /\ In (Row (@SettingsTs.addToggle demoHost "Use date formatting"
                  "useMoment" (Some CbDisplay) false st'))
          (containerEl st')
    /\ get "useMoment" (settings st') = VBool true.
Proof.
  destruct (@toggle_redisplay_shows demoHost demoMain "useMoment" (VBool true)
              (demoState SettingsTs.DEFAULT)) as [(st' & E & _ & Sh) _].
  exists st'. split; [exact E|].
  assert (In (Row (@SettingsTs.addToggle demoHost "Use date formatting"
                     "useMoment" (Some CbDisplay) false st'))
             (containerEl st')) as Hin.
  { injection E as <-. vm_compute. auto 20. }
  split; [exact Hin|].
  exact (Sh _ _ _ Hin eq_refl).
Defined.
